(** * The Todoist monitor action of the Stream Deck plugin

    A shallow embedding of [src/actions/todoist-monitor.ts]: the colour
    policy [getColor], the icon renderer [getButtonSvg], the remote query
    [getTasks], the refresh pipeline [updateButton] and the per-instance
    timer bookkeeping of [onWillAppear] / [onWillDisappear].

    JavaScript numbers are IEEE 754 binary64 values, so they are embedded as
    Rocq's primitive floats; [null] is [None]; strings are sequences of
    code units (one [ascii] per code unit, which covers code units below
    256). *)

From Stdlib Require Import Floats ZArith String Ascii List Bool Lia DecimalString.
From stdpp Require Import gmap strings.

Set Warnings "-inexact-float".
Local Open Scope string_scope.

(** ** The fragment of the JavaScript runtime the action relies on *)

Module JS.

(** [ToBoolean]: what an [if (x)], an [x && y] or an [x || y] tests. *)
Class ToBoolean (A : Type) := truthy : A -> bool.

(** A number is falsy when it is [+0], [-0] or [NaN]. *)
#[export] Instance number_ToBoolean : ToBoolean float :=
  fun x => PrimFloat.eqb x x && negb (PrimFloat.eqb x 0%float).

(** A string is falsy when it is empty. *)
#[export] Instance string_ToBoolean : ToBoolean string :=
  fun s => negb (String.eqb s "").

(** [null] is falsy; any other value of [T | null] is tested as a [T]. *)
#[export] Instance nullable_ToBoolean {A} `{ToBoolean A} : ToBoolean (option A) :=
  fun o => match o with Some a => truthy a | None => false end.

(** [x || d] where [x : T | null] and [d : T]. *)
Definition or_else {A} `{ToBoolean A} (x : option A) (d : A) : A :=
  match x with
  | Some a => if truthy a then a else d
  | None => d
  end.

(** [ToNumber] of a [number | null]: [null] converts to [+0]. *)
Definition ToNumber (x : option float) : float :=
  match x with Some a => a | None => 0%float end.

(** [x >= y] with [x : number] and [y : number | null]: the IEEE
    comparison, false as soon as one side is [NaN]. *)
Definition ge (x : float) (y : option float) : bool :=
  PrimFloat.leb (ToNumber y) x.

(** [Math.min] of two numbers: [NaN] is contagious and [-0] is below [+0]. *)
Definition Math_min (x y : float) : float :=
  if negb (PrimFloat.eqb x x) then nan
  else if negb (PrimFloat.eqb y y) then nan
  else if PrimFloat.ltb x y then x
  else if PrimFloat.ltb y x then y
  else if get_sign x then x else y.

(** The number with the value of a natural number (a string length, an
    array length), rounded to nearest even above 2^53. *)
Definition of_nat (n : nat) : float :=
  SF2Prim (binary_normalize prec emax (Z.of_nat n) 0 false).

End JS.
Import JS.

Infix "|?" := or_else (at level 45, left associativity).
Infix ">=?" := ge (at level 70, no associativity).

(** ** The data model *)

(** [QuerySettings]: the settings of one button. *)
Record QuerySettings := {
  item_name : string;
  item_filter : string;
  g_cutoff_1 : option float;
  g_cutoff_2 : option float;
  g_cutoff_3 : option float;
  g_color_1 : option string;
  g_color_2 : option string;
  g_color_3 : option string;
  g_color_4 : option string;
  b_cutoff_1 : option float;
  b_cutoff_2 : option float;
  b_cutoff_3 : option float;
  b_color_1 : option string;
  b_color_2 : option string;
  b_color_3 : option string;
  b_color_4 : option string
}.

(** [TodoistSettings]: the global settings of the plugin. *)
Record TodoistSettings := { apiToken : string }.

(** [Task]: one element of the array the remote service answers with. *)
Record Task := { id : string; content : string }.

(** ** The colour policy *)

Definition getColor (taskCount : float) (settings : QuerySettings) : string :=
  if truthy (g_cutoff_1 settings) then
    if taskCount >=? g_cutoff_1 settings then
      g_color_1 settings |? "green"
    else if truthy (g_cutoff_2 settings) && (taskCount >=? g_cutoff_2 settings) then
      g_color_2 settings |? "yellow"
    else if truthy (g_cutoff_3 settings) && (taskCount >=? g_cutoff_3 settings) then
      g_color_3 settings |? "orange"
    else g_color_4 settings |? "red"
  else if truthy (b_cutoff_1 settings) then
    if taskCount >=? b_cutoff_1 settings then
      b_color_1 settings |? "red"
    else if truthy (b_cutoff_2 settings) && (taskCount >=? b_cutoff_2 settings) then
      b_color_2 settings |? "orange"
    else if truthy (b_cutoff_3 settings) && (taskCount >=? b_cutoff_3 settings) then
      b_color_3 settings |? "yellow"
    else b_color_4 settings |? "green"
  else "white".

(** ** The icon renderer *)

(** The two characters a Rocq string literal cannot hold as they are. *)
Definition dquote : string := String "034" EmptyString.
Definition newline : string := String "010" EmptyString.

(** [name="value"], as the attributes of the template are written. *)
Definition svg_attr (name value : string) : string :=
  name ++ "=" ++ dquote ++ value ++ dquote.

(** The local function [getFontSize] of [getButtonSvg]. The literal
    [0.45] stands for the double nearest to it, as it does in the source. *)
Definition getFontSize (text : string) (maxWidth maxFontSize : float) : float :=
  Math_min (maxWidth / (of_nat (String.length text) * 0.45))%float maxFontSize.

Section Renderer.

(** [Number::toString], the conversion a template literal applies to a
    number. It belongs to the language runtime, so the renderer is
    parametric in it; [JSNumber.toString] below is an instance. *)
Variable Number_toString : float -> string.

(** One [<text>] line of the template: the two lines differ in their
    [y], in the font size and in the text. *)
Definition svg_text (y : string) (fontSize : float) (text : string) : string :=
  "    <text " ++ svg_attr "x" "72" ++ " " ++ svg_attr "y" y ++ " "
    ++ svg_attr "dominant-baseline" "middle" ++ " "
    ++ svg_attr "text-anchor" "middle" ++ " "
    ++ svg_attr "fill" "#000" ++ " "
    ++ svg_attr "font-size" (Number_toString fontSize ++ "px") ++ " "
    ++ svg_attr "font-family" "Tahoma" ++ ">" ++ text ++ "</text>" ++ newline.

Definition getButtonSvg (taskCount : float) (settings : QuerySettings) : string :=
  let mainText := Number_toString taskCount ++ " Tasks" in
  let backgroundColor := getColor taskCount settings in
  "<svg " ++ svg_attr "width" "144" ++ " " ++ svg_attr "height" "144" ++ " "
    ++ svg_attr "xmlns" "http://www.w3.org/2000/svg" ++ ">" ++ newline
    ++ "    <rect " ++ svg_attr "width" "144" ++ " " ++ svg_attr "height" "144" ++ " "
    ++ svg_attr "fill" backgroundColor ++ " />" ++ newline
    ++ svg_text "72" (getFontSize mainText 140 40) mainText
    ++ svg_text "135" (getFontSize (item_name settings) 140 28) (item_name settings)
    ++ "    </svg>".

End Renderer.

(** ** The host, the event loop and the remote service *)

(** A JavaScript exception: [new Error(m)] has the name [Error]. *)
Record Exn := { exn_name : string; exn_message : string }.
Definition Error (m : string) : Exn := {| exn_name := "Error"; exn_message := m |}.

(** What node-fetch hands back once the service has answered: [ok] holds
    for the statuses 200 to 299, and [json()] either yields the task array
    or rejects. *)
Record Response := {
  status : Z;
  statusText : string;
  json : Exn + list Task
}.
Definition ok (r : Response) : bool := (200 <=? status r)%Z && (status r <? 300)%Z.

(** A [NodeJS.Timeout], the handle [setInterval] returns. *)
Abbreviation Timeout := positive.

(** The inputs the environment decides: the stored global settings and,
    for each request, a response or a transport failure. *)
Record Env := {
  globalSettings : TodoistSettings;
  remote : string -> string -> Exn + Response
}.

(** The calls the action makes on its collaborators, in order. *)
Inductive Call :=
| logger_debug (message : string)
| logger_error (message : string)
| http_get (url authorization : string)
| host_getGlobalSettings
| host_getSettings (context : string)
| host_setImage (context image : string)
| loop_setInterval (handle : Timeout) (context : string) (ms : Z)
| loop_clearInterval (handle : Timeout).

(** The state the handlers act on: the action's own [intervals] map, the
    interval timers alive in the event loop (each one remembers the
    instance its callback captured and its period), the supply of fresh
    handles, the image each instance displays, and the trace of calls. *)
Record World := {
  intervals : gmap string Timeout;
  timers : gmap Timeout (string * Z);
  next_timer : Timeout;
  images : gmap string string;
  calls : list Call
}.

(** A handler run: it reads the environment, updates the world, and
    either returns or throws (an [async] function then rejects). *)
Inductive Outcome (A : Type) :=
| Returned (a : A)
| Thrown (e : Exn).
Arguments Returned {A} a.
Arguments Thrown {A} e.

Definition Eff (A : Type) : Type := Env -> World -> Outcome A * World.

#[export] Instance Eff_ret : MRet Eff := fun A a _ w => (Returned a, w).
#[export] Instance Eff_bind : MBind Eff := fun A B k m env w =>
  match m env w with
  | (Returned a, w') => k a env w'
  | (Thrown e, w') => (Thrown e, w')
  end.

Definition throw {A} (e : Exn) : Eff A := fun _ w => (Thrown e, w).
Definition ask : Eff Env := fun env w => (Returned env, w).
Definition get : Eff World := fun _ w => (Returned w, w).
Definition put (w : World) : Eff unit := fun _ _ => (Returned tt, w).

Definition record (c : Call) : Eff unit :=
  w ← get;
  put {| intervals := intervals w; timers := timers w; next_timer := next_timer w;
         images := images w; calls := calls w ++ [c] |}.

(** *** The collaborators' operations *)

Definition logger_debug_ (message : string) : Eff unit := record (logger_debug message).
Definition logger_error_ (message : string) : Eff unit := record (logger_error message).

(** [fetch(url, {headers: {Authorization: authorization}})], awaited. *)
Definition fetch (url authorization : string) : Eff Response :=
  record (http_get url authorization);;
  env ← ask;
  match remote env url authorization with
  | inr response => mret response
  | inl e => throw e
  end.

(** [response.json()], awaited. *)
Definition Response_json (response : Response) : Eff (list Task) :=
  match json response with
  | inr tasks => mret tasks
  | inl e => throw e
  end.

(** [streamDeck.settings.getGlobalSettings()], awaited. *)
Definition getGlobalSettings : Eff TodoistSettings :=
  record host_getGlobalSettings;;
  env ← ask;
  mret (globalSettings env).

(** [action.getSettings()]: asks the host to send the settings of the
    instance; the host answers with a [didReceiveSettings] event. *)
Definition Action_getSettings (context : string) : Eff unit :=
  record (host_getSettings context).

(** [action.setImage(image)]: the instance displays [image] from now on. *)
Definition Action_setImage (context image : string) : Eff unit :=
  w ← get;
  put {| intervals := intervals w; timers := timers w; next_timer := next_timer w;
         images := <[context := image]> (images w);
         calls := calls w ++ [host_setImage context image] |}.

(** [setInterval(callback, ms)], for the one callback the action ever
    installs, which captures the instance [context]. *)
Definition setInterval (context : string) (ms : Z) : Eff Timeout :=
  w ← get;
  let handle := next_timer w in
  put {| intervals := intervals w;
         timers := <[handle := (context, ms)]> (timers w);
         next_timer := Pos.succ handle;
         images := images w;
         calls := calls w ++ [loop_setInterval handle context ms] |};;
  mret handle.

Definition clearInterval (handle : Timeout) : Eff unit :=
  w ← get;
  put {| intervals := intervals w; timers := delete handle (timers w);
         next_timer := next_timer w; images := images w;
         calls := calls w ++ [loop_clearInterval handle] |}.

(** Reads and writes of the field [this.intervals]. *)
Definition intervals_has (key : string) : Eff bool :=
  w ← get; mret (bool_decide (is_Some (intervals w !! key))).

Definition intervals_get (key : string) : Eff (option Timeout) :=
  w ← get; mret (intervals w !! key).

Definition intervals_set (key : string) (handle : Timeout) : Eff unit :=
  w ← get;
  put {| intervals := <[key := handle]> (intervals w); timers := timers w;
         next_timer := next_timer w; images := images w; calls := calls w |}.

Definition intervals_delete (key : string) : Eff unit :=
  w ← get;
  put {| intervals := delete key (intervals w); timers := timers w;
         next_timer := next_timer w; images := images w; calls := calls w |}.

(** ** The action *)

(** The events the host delivers: the instance concerned ([ev.action.id])
    and its settings ([ev.payload.settings]). *)
Record ActionEvent := {
  action_id : string;
  payload_settings : QuerySettings
}.

Section TodoistMonitor.

(** Runtime functions whose output only reaches the request line and
    the log. *)
Variable encodeURIComponent : string -> string.
Variable JSON_stringify : Response -> string.
Variable Number_toString : float -> string.

Definition getTasks (apiToken item_filter : string) : Eff (list Task) :=
  let url := "https://api.todoist.com/rest/v2/tasks?filter=" ++ encodeURIComponent item_filter in
  logger_debug_ ("Fetching tasks from " ++ url);;
  response ← fetch url ("Bearer " ++ apiToken);
  if negb (ok response) then
    logger_error_ ("Error fetching tasks: " ++ statusText response);;
    throw (Error ("Error fetching tasks: " ++ statusText response))
  else
    logger_debug_ ("Got response: " ++ JSON_stringify response);;
    Response_json response.

Definition updateButton (settings : QuerySettings) (action : string) : Eff unit :=
  globalSettings ← getGlobalSettings;
  tasks ← getTasks (apiToken globalSettings) (item_filter settings);
  let svg := getButtonSvg Number_toString (of_nat (length tasks)) settings in
  Action_setImage action ("data:image/svg+xml;charset=utf8," ++ svg).

(** The callback given to [setInterval], run by the event loop at each
    period of the timer. *)
Definition timer_callback (context : string) : Eff unit :=
  logger_debug_ "Timer fired";;
  Action_getSettings context.

Definition startTimerIfNeeded (ev : ActionEvent) : Eff unit :=
  registered ← intervals_has (action_id ev);
  if negb registered then
    handle ← setInterval (action_id ev) 60000;
    intervals_set (action_id ev) handle
  else mret tt.

Definition onWillAppear (ev : ActionEvent) : Eff unit :=
  startTimerIfNeeded ev;;
  if truthy (item_filter (payload_settings ev)) then
    Action_getSettings (action_id ev)
  else mret tt.

Definition onWillDisappear (ev : ActionEvent) : Eff unit :=
  registered ← intervals_has (action_id ev);
  if (registered : bool) then
    handle ← intervals_get (action_id ev);
    (match handle with
     | Some h => clearInterval h
     | None => mret tt
     end : Eff unit);;
    intervals_delete (action_id ev)
  else mret tt.

Definition onDidReceiveSettings (ev : ActionEvent) : Eff unit :=
  updateButton (payload_settings ev) (action_id ev).

Definition onKeyDown (ev : ActionEvent) : Eff unit :=
  Action_getSettings (action_id ev).

(** The event loop firing the timer [handle]: a cleared timer does
    nothing. *)
Definition timer_fires (handle : Timeout) : Eff unit :=
  w ← get;
  match timers w !! handle with
  | Some (context, _) => timer_callback context
  | None => mret tt
  end.

End TodoistMonitor.

(** ** Instances of the runtime functions

    Executable versions of the three runtime functions the action is
    parametric in; the examples below run the action with them. *)

Module JSNumber.

(** [a * 10^p] compared with [b * 2^e]. *)
Definition compare_dec_bin (a p b e : Z) : comparison :=
  (a * 10 ^ Z.max p 0 * 2 ^ Z.max (- e) 0
     ?= b * 2 ^ Z.max e 0 * 10 ^ Z.max (- p) 0)%Z.

(** The integer part of [m * 2^e / 10^p]. *)
Definition floor_dec (m e p : Z) : Z :=
  ((m * 2 ^ Z.max e 0 * 10 ^ Z.max (- p) 0)
     / (2 ^ Z.max (- e) 0 * 10 ^ Z.max p 0))%Z.

(** The least [n] from [n0] on with [m * 2^e < 10^n]. *)
Fixpoint magnitude (fuel : nat) (n0 m e : Z) : Z :=
  match fuel with
  | O => n0
  | S fuel' =>
      match compare_dec_bin 1 n0 m e with
      | Gt => n0
      | _ => magnitude fuel' (n0 + 1)%Z m e
      end
  end.

(** Whether the decimal [s * 10^p] reads back as the double [m * 2^e]:
    it lies between the midpoints to the two neighbouring doubles, the
    midpoints themselves counting when [m] is even. Values are measured
    in quarters of the unit [2^e]. *)
Definition reads_back (m e s p : Z) : bool :=
  let below := if (m =? 2 ^ 52)%Z && (-1074 <? e)%Z then 1%Z else 2%Z in
  let lo := compare_dec_bin s p (4 * m - below) (e - 2) in
  let hi := compare_dec_bin s p (4 * m + 2) (e - 2) in
  match lo, hi with
  | Gt, Lt => true
  | Eq, Lt | Gt, Eq => Z.even m
  | _, _ => false
  end.

(** The shortest digit string [s] (of [k] digits, [k] growing from the
    given one) with [s * 10^(n-k)] reading back as [m * 2^e]; of two
    candidates the nearer one. *)
Fixpoint shortest (fuel : nat) (k n m e : Z) : Z * Z :=
  let p := (n - k)%Z in
  let s := floor_dec m e p in
  match fuel with
  | O => (s, k)
  | S fuel' =>
      match reads_back m e s p, reads_back m e (s + 1) p with
      | true, true =>
          match compare_dec_bin (2 * s + 1) p (8 * m) (e - 2) with
          | Gt => (s, k)
          | Lt => (s + 1, k)%Z
          | Eq => if Z.even s then (s, k) else (s + 1, k)%Z
          end
      | true, false => (s, k)
      | false, true => ((s + 1)%Z, k)
      | false, false => shortest fuel' (k + 1)%Z n m e
      end
  end.

Definition digits (z : Z) : string := NilZero.string_of_uint (N.to_uint (Z.to_N z)).
Definition zeros (n : Z) : string := string_of_list_ascii (repeat "0"%char (Z.to_nat n)).
Definition drop (n : Z) (s : string) : string :=
  substring (Z.to_nat n) (String.length s - Z.to_nat n) s.

(** The text of the positive finite number [m * 2^e]. *)
Definition positive_toString (m e : Z) : string :=
  let n0 := magnitude 640 (-324) m e in
  let '(s0, k) := shortest 17 1 n0 m e in
  let '(s, n) := if (s0 =? 10 ^ k)%Z then ((10 ^ (k - 1))%Z, (n0 + 1)%Z) else (s0, n0) in
  let d := digits s in
  if (-6 <? n)%Z && (n <=? 21)%Z then
    if (k <=? n)%Z then d ++ zeros (n - k)
    else if (0 <? n)%Z then substring 0 (Z.to_nat n) d ++ "." ++ drop n d
    else "0." ++ zeros (- n) ++ d
  else
    let exponent := (if (0 <=? n - 1)%Z then "+" else "-") ++ digits (Z.abs (n - 1)) in
    if (k =? 1)%Z then d ++ "e" ++ exponent
    else substring 0 1 d ++ "." ++ drop 1 d ++ "e" ++ exponent.

(** [Number::toString] in radix 10. *)
Definition toString (x : float) : string :=
  match Prim2SF x with
  | S754_nan => "NaN"
  | S754_zero _ => "0"
  | S754_infinity false => "Infinity"
  | S754_infinity true => "-Infinity"
  | S754_finite false m e => positive_toString (Z.pos m) e
  | S754_finite true m e => "-" ++ positive_toString (Z.pos m) e
  end.

End JSNumber.

(** [encodeURIComponent] on code units below 256: the unreserved
    characters stay, any other code unit becomes the percent-escaped
    bytes of its UTF-8 encoding. *)
Module URI.

Definition unreserved (c : ascii) : bool :=
  let n := nat_of_ascii c in
  ((65 <=? n) && (n <=? 90) || (97 <=? n) && (n <=? 122) || (48 <=? n) && (n <=? 57)
   || existsb (Ascii.eqb c) (list_ascii_of_string "-_.!~*'()"))%nat.

Definition hex_digit (n : nat) : ascii :=
  nth n (list_ascii_of_string "0123456789ABCDEF") "0"%char.

Definition escape (byte : nat) : string :=
  String "%" (String (hex_digit (byte / 16)) (String (hex_digit (byte mod 16)) EmptyString)).

Fixpoint encodeURIComponent (s : string) : string :=
  match s with
  | EmptyString => EmptyString
  | String c rest =>
      let n := nat_of_ascii c in
      (if unreserved c then String c EmptyString
       else if (n <? 128)%nat then escape n
       else escape (192 + n / 64) ++ escape (128 + n mod 64))
      ++ encodeURIComponent rest
  end.

End URI.

(** [JSON.stringify] of a node-fetch response: the object has two own
    enumerable properties, whatever the service answered. *)
Definition Response_stringify (_ : Response) : string :=
  "{" ++ dquote ++ "size" ++ dquote ++ ":0," ++ dquote ++ "timeout" ++ dquote ++ ":0}".


(** ** Vocabulary of the statements *)

(** The six cutoff fields of the settings, and the settings with one of
    them replaced. *)
Inductive Cutoff := G1 | G2 | G3 | B1 | B2 | B3.

Definition with_cutoff (f : Cutoff) (v : option float) (s : QuerySettings) : QuerySettings :=
  {| item_name := item_name s;
     item_filter := item_filter s;
     g_cutoff_1 := match f with G1 => v | _ => g_cutoff_1 s end;
     g_cutoff_2 := match f with G2 => v | _ => g_cutoff_2 s end;
     g_cutoff_3 := match f with G3 => v | _ => g_cutoff_3 s end;
     g_color_1 := g_color_1 s;
     g_color_2 := g_color_2 s;
     g_color_3 := g_color_3 s;
     g_color_4 := g_color_4 s;
     b_cutoff_1 := match f with B1 => v | _ => b_cutoff_1 s end;
     b_cutoff_2 := match f with B2 => v | _ => b_cutoff_2 s end;
     b_cutoff_3 := match f with B3 => v | _ => b_cutoff_3 s end;
     b_color_1 := b_color_1 s;
     b_color_2 := b_color_2 s;
     b_color_3 := b_color_3 s;
     b_color_4 := b_color_4 s |}.

(** Two settings with the same ladder G: its three cutoffs and its four
    colours. Everything else may differ. *)
Definition same_ladder_G (s s' : QuerySettings) : Prop :=
  g_cutoff_1 s = g_cutoff_1 s' /\ g_cutoff_2 s = g_cutoff_2 s' /\
  g_cutoff_3 s = g_cutoff_3 s' /\
  g_color_1 s = g_color_1 s' /\ g_color_2 s = g_color_2 s' /\
  g_color_3 s = g_color_3 s' /\ g_color_4 s = g_color_4 s'.

(** Settings with no colour chosen and a single ladder filled in. *)
Definition no_ladder : QuerySettings :=
  {| item_name := ""; item_filter := "";
     g_cutoff_1 := None; g_cutoff_2 := None; g_cutoff_3 := None;
     g_color_1 := None; g_color_2 := None; g_color_3 := None; g_color_4 := None;
     b_cutoff_1 := None; b_cutoff_2 := None; b_cutoff_3 := None;
     b_color_1 := None; b_color_2 := None; b_color_3 := None; b_color_4 := None |}.

Definition only_ladder_G (c1 c2 c3 : option float) : QuerySettings :=
  with_cutoff G1 c1 (with_cutoff G2 c2 (with_cutoff G3 c3 no_ladder)).

Definition only_ladder_B (c1 c2 c3 : option float) : QuerySettings :=
  with_cutoff B1 c1 (with_cutoff B2 c2 (with_cutoff B3 c3 no_ladder)).

(** The default colours read in the opposite order. *)
Definition opposite (color : string) : string :=
  if String.eqb color "green" then "red"
  else if String.eqb color "yellow" then "orange"
  else if String.eqb color "orange" then "yellow"
  else if String.eqb color "red" then "green"
  else color.

(** Sample settings: both ladders with the cutoffs (10, 5, 2) and colours
    of the user's own on some rungs. *)
Definition sample_settings : QuerySettings :=
  {| item_name := "Inbox"; item_filter := "today | overdue";
     g_cutoff_1 := Some 10%float; g_cutoff_2 := Some 5%float; g_cutoff_3 := Some 2%float;
     g_color_1 := Some "#00ff00"; g_color_2 := None; g_color_3 := Some ""; g_color_4 := None;
     b_cutoff_1 := Some 10%float; b_cutoff_2 := Some 5%float; b_cutoff_3 := Some 2%float;
     b_color_1 := None; b_color_2 := Some "#ffa500"; b_color_3 := None; b_color_4 := Some "lime" |}.

(** The error of a failed count query: the [Error] that [getTasks] throws,
    whose message carries the status text of the response. *)
Definition RemoteQueryError (reason : string) : Exn :=
  Error ("Error fetching tasks: " ++ reason).

(** The request [getTasks] sends for a filter. *)
Definition tasks_url (encodeURIComponent : string -> string) (item_filter : string) : string :=
  "https://api.todoist.com/rest/v2/tasks?filter=" ++ encodeURIComponent item_filter.

(** Kinds of calls. *)
Definition is_setImage (c : Call) : bool :=
  match c with host_setImage _ _ => true | _ => false end.
Definition is_getSettings (c : Call) : bool :=
  match c with host_getSettings _ => true | _ => false end.
Definition is_setInterval (c : Call) : bool :=
  match c with loop_setInterval _ _ _ => true | _ => false end.

(** The timer registrations of a world: the action's map, the live
    timers and the handle supply. *)
Definition registrations (w : World) : gmap string Timeout * gmap Timeout (string * Z) * Timeout :=
  (intervals w, timers w, next_timer w).

(** The world a plugin starts in. *)
Definition initial_world : World :=
  {| intervals := ∅; timers := ∅; next_timer := 1%positive; images := ∅; calls := [] |}.

(** The map of the action and the timers of the event loop agree: every
    registered handle is a live 60-second timer of its instance, every
    live timer is the registered one of its instance, and live handles
    are below the next fresh one. *)
Record consistent (w : World) : Prop := {
  registered_alive : forall context h,
    intervals w !! context = Some h -> timers w !! h = Some (context, 60000%Z);
  alive_registered : forall h context ms,
    timers w !! h = Some (context, ms) -> intervals w !! context = Some h;
  alive_below_next : forall h,
    is_Some (timers w !! h) -> (h < next_timer w)%positive
}.

(** A handler run on each event of a list, in order. *)
Fixpoint handle_each (handler : ActionEvent -> Eff unit) (evs : list ActionEvent) : Eff unit :=
  match evs with
  | [] => mret tt
  | ev :: evs' => handler ev;; handle_each handler evs'
  end.

(** Sample environment: a token, and a service that refuses every
    request as unauthorised. *)
Definition unauthorized : Response :=
  {| status := 401; statusText := "Unauthorized"; json := inr [] |}.

Definition refusing_env : Env :=
  {| globalSettings := {| apiToken := "secret" |};
     remote := fun _ _ => inr unauthorized |}.

Definition sample_event : ActionEvent :=
  {| action_id := "button-1"; payload_settings := sample_settings |}.

(** A button that has no filter yet. *)
Definition unfiltered_event : ActionEvent :=
  {| action_id := "button-2"; payload_settings := no_ladder |}.

(** The world after [startTimerIfNeeded]: untouched when the instance is
    registered, one more timer and one more entry otherwise. *)
Definition timer_started (context : string) (w : World) : World :=
  match intervals w !! context with
  | Some _ => w
  | None =>
      {| intervals := <[context := next_timer w]> (intervals w);
         timers := <[next_timer w := (context, 60000%Z)]> (timers w);
         next_timer := Pos.succ (next_timer w);
         images := images w;
         calls := calls w ++ [loop_setInterval (next_timer w) context 60000] |}
  end.

(** The world after [action.getSettings()]. *)
Definition refresh_requested (context : string) (w : World) : World :=
  {| intervals := intervals w; timers := timers w; next_timer := next_timer w;
     images := images w; calls := calls w ++ [host_getSettings context] |}.

(** The world after [onWillAppear]. *)
Definition appeared (ev : ActionEvent) (w : World) : World :=
  if truthy (item_filter (payload_settings ev))
  then refresh_requested (action_id ev) (timer_started (action_id ev) w)
  else timer_started (action_id ev) w.

(** The world after [onWillDisappear]. *)
Definition disappeared (context : string) (w : World) : World :=
  match intervals w !! context with
  | Some h =>
      {| intervals := delete context (intervals w);
         timers := delete h (timers w);
         next_timer := next_timer w;
         images := images w;
         calls := calls w ++ [loop_clearInterval h] |}
  | None => w
  end.

(** ** Well-formed markup

    A recogniser for the part of XML 1.0 the renderer writes. A document
    is one root element, with white space allowed around it; an element
    is an empty-element tag, or a start tag, content and the end tag of
    the same name; an attribute is a name, an equals sign that white
    space may surround, and a value between double quotes, and no name
    comes twice in a tag; content is character data and elements. An
    attribute value holds no [<] and no [&]; character data holds no [<],
    no [&] and no []]>]; and every character of either is one XML allows:
    tab, line feed, carriage return, or a code from 32 on.

    Left out of XML: references, comments, processing instructions,
    CDATA sections, the XML and document type declarations, values
    between single quotes, and names beyond ASCII. A document that uses
    one of them is refused; any other document is accepted exactly when
    it is well-formed. *)

Module XML.

Inductive mode :=
| Content (closing : nat)
| TagStart
| OpenName (name : string)
| InTag (name : string) (attrs : list string)
| AttrName (name : string) (attrs : list string) (attr : string)
| BeforeEq (name : string) (attrs : list string) (attr : string)
| AttrEq (name : string) (attrs : list string)
| AttrValue (name : string) (attrs : list string)
| AfterAttr (name : string) (attrs : list string)
| EmptyEnd (name : string)
| CloseName (name : string)
| CloseEnd (name : string).

(** The scanner's state: where it is (in content, with the number of
    closing brackets just read, at most 2), the elements still open
    (innermost first), and whether the root element is closed. *)
Record state := {
  mode_of : mode;
  open : list string;
  root_done : bool
}.

Definition initial : state := {| mode_of := Content 0; open := []; root_done := false |}.

Definition is_space (c : ascii) : bool :=
  existsb (Ascii.eqb c) [" "; "009"; "010"; "013"]%char.

(** The characters XML allows, among the codes below 256. *)
Definition valid_char (c : ascii) : bool :=
  let n := nat_of_ascii c in
  ((n =? 9) || (n =? 10) || (n =? 13) || (32 <=? n))%nat.

Definition name_start (c : ascii) : bool :=
  let n := nat_of_ascii c in
  ((65 <=? n) && (n <=? 90) || (97 <=? n) && (n <=? 122)
   || Ascii.eqb c "_" || Ascii.eqb c ":")%nat.

Definition name_char (c : ascii) : bool :=
  let n := nat_of_ascii c in
  (name_start c || (48 <=? n) && (n <=? 57) || Ascii.eqb c "-" || Ascii.eqb c ".")%nat.

Definition snoc (s : string) (c : ascii) : string := s ++ String c EmptyString.

Definition goto (st : state) (m : mode) : option state :=
  Some {| mode_of := m; open := open st; root_done := root_done st |}.

(** The start tag of [name] is complete. *)
Definition push (st : state) (name : string) : option state :=
  Some {| mode_of := Content 0; open := name :: open st; root_done := root_done st |}.

(** The end tag of [name] is complete. *)
Definition pop (st : state) (name : string) : option state :=
  match open st with
  | top :: rest =>
      if String.eqb top name
      then Some {| mode_of := Content 0; open := rest;
                   root_done := match rest with [] => true | _ => root_done st end |}
      else None
  | [] => None
  end.

(** The equals sign after the attribute name [attr]. *)
Definition equals (st : state) (name : string) (attrs : list string) (attr : string)
  : option state :=
  if existsb (String.eqb attr) attrs then None
  else goto st (AttrEq name (attr :: attrs)).

Definition step (st : state) (c : ascii) : option state :=
  match mode_of st with
  | Content closing =>
      match open st with
      | [] =>
          if is_space c then Some st
          else if Ascii.eqb c "<" && negb (root_done st) then goto st TagStart
          else None
      | _ :: _ =>
          if Ascii.eqb c "<" then goto st TagStart
          else if Ascii.eqb c "&" then None
          else if Ascii.eqb c "]" then goto st (Content (Nat.min 2 (S closing)))
          else if Ascii.eqb c ">" then
            if (2 <=? closing)%nat then None else goto st (Content 0)
          else if valid_char c then goto st (Content 0)
          else None
      end
  | TagStart =>
      if Ascii.eqb c "/" then
        match open st with [] => None | _ :: _ => goto st (CloseName EmptyString) end
      else if name_start c then goto st (OpenName (String c EmptyString))
      else None
  | OpenName name =>
      if name_char c then goto st (OpenName (snoc name c))
      else if is_space c then goto st (InTag name [])
      else if Ascii.eqb c "/" then goto st (EmptyEnd name)
      else if Ascii.eqb c ">" then push st name
      else None
  | InTag name attrs =>
      if is_space c then Some st
      else if name_start c then goto st (AttrName name attrs (String c EmptyString))
      else if Ascii.eqb c "/" then goto st (EmptyEnd name)
      else if Ascii.eqb c ">" then push st name
      else None
  | AttrName name attrs attr =>
      if name_char c then goto st (AttrName name attrs (snoc attr c))
      else if is_space c then goto st (BeforeEq name attrs attr)
      else if Ascii.eqb c "=" then equals st name attrs attr
      else None
  | BeforeEq name attrs attr =>
      if is_space c then Some st
      else if Ascii.eqb c "=" then equals st name attrs attr
      else None
  | AttrEq name attrs =>
      if is_space c then Some st
      else if Ascii.eqb c "034" then goto st (AttrValue name attrs)
      else None
  | AttrValue name attrs =>
      if Ascii.eqb c "034" then goto st (AfterAttr name attrs)
      else if Ascii.eqb c "<" || Ascii.eqb c "&" then None
      else if valid_char c then Some st
      else None
  | AfterAttr name attrs =>
      if is_space c then goto st (InTag name attrs)
      else if Ascii.eqb c "/" then goto st (EmptyEnd name)
      else if Ascii.eqb c ">" then push st name
      else None
  | EmptyEnd name =>
      if Ascii.eqb c ">" then
        Some {| mode_of := Content 0; open := open st;
                root_done := match open st with [] => true | _ => root_done st end |}
      else None
  | CloseName name =>
      if name_char c then goto st (CloseName (snoc name c))
      else if is_space c then goto st (CloseEnd name)
      else if Ascii.eqb c ">" then pop st name
      else None
  | CloseEnd name =>
      if is_space c then Some st
      else if Ascii.eqb c ">" then pop st name
      else None
  end.

Fixpoint scan (st : state) (s : string) : option state :=
  match s with
  | EmptyString => Some st
  | String c rest =>
      match step st c with
      | Some st' => scan st' rest
      | None => None
      end
  end.

(** Reading [s] from the state [st] ends outside the root element,
    closed. *)
Definition accepts (st : state) (s : string) : bool :=
  match scan st s with
  | Some {| mode_of := Content _; open := []; root_done := true |} => true
  | _ => false
  end.

Definition well_formed (s : string) : bool := accepts initial s.

(** Text that can stand in an attribute value as it is: allowed
    characters other than [<], [&] and the double quote. *)
Definition value_char (c : ascii) : bool :=
  valid_char c && negb (Ascii.eqb c "<" || Ascii.eqb c "&" || Ascii.eqb c "034").

Definition value_text (s : string) : bool := forallb value_char (list_ascii_of_string s).

(** Text that can stand in content as it is, after [closing] closing
    brackets: allowed characters other than [<] and [&], and no []]>]. *)
Fixpoint chardata_from (closing : nat) (s : string) : bool :=
  match s with
  | EmptyString => true
  | String c rest =>
      if Ascii.eqb c "<" || Ascii.eqb c "&" then false
      else if Ascii.eqb c "]" then chardata_from (Nat.min 2 (S closing)) rest
      else if Ascii.eqb c ">" then negb (2 <=? closing)%nat && chardata_from 0 rest
      else valid_char c && chardata_from 0 rest
  end.

Definition character_data (s : string) : bool := chardata_from 0 s.

(** Text that can stand in both places: allowed characters other than
    [<], [>], [&] and the double quote. *)
Definition inert_char (c : ascii) : bool := value_char c && negb (Ascii.eqb c ">").

Definition inert (s : string) : bool := forallb inert_char (list_ascii_of_string s).

End XML.

(** The settings with another display label. *)
Definition with_item_name (name : string) (s : QuerySettings) : QuerySettings :=
  {| item_name := name;
     item_filter := item_filter s;
     g_cutoff_1 := g_cutoff_1 s; g_cutoff_2 := g_cutoff_2 s; g_cutoff_3 := g_cutoff_3 s;
     g_color_1 := g_color_1 s; g_color_2 := g_color_2 s;
     g_color_3 := g_color_3 s; g_color_4 := g_color_4 s;
     b_cutoff_1 := b_cutoff_1 s; b_cutoff_2 := b_cutoff_2 s; b_cutoff_3 := b_cutoff_3 s;
     b_color_1 := b_color_1 s; b_color_2 := b_color_2 s;
     b_color_3 := b_color_3 s; b_color_4 := b_color_4 s |}.

(** A service that answers every request with twelve tasks. *)
Definition twelve_tasks : list Task :=
  repeat {| id := "1"; content := "Write the report" |} 12.

Definition twelve_found : Response :=
  {| status := 200; statusText := "OK"; json := inr twelve_tasks |}.

Definition serving_env : Env :=
  {| globalSettings := {| apiToken := "secret" |};
     remote := fun _ _ => inr twelve_found |}.

(** Settings with an empty label whose first colour is a double quote. *)
Definition quote_colored : QuerySettings :=
  {| item_name := ""; item_filter := "today";
     g_cutoff_1 := Some 10%float; g_cutoff_2 := None; g_cutoff_3 := None;
     g_color_1 := Some dquote; g_color_2 := None; g_color_3 := None; g_color_4 := None;
     b_cutoff_1 := None; b_cutoff_2 := None; b_cutoff_3 := None;
     b_color_1 := None; b_color_2 := None; b_color_3 := None; b_color_4 := None |}.

(** ** The events of the host, one after the other *)

(** What the host delivers to the action: its four events, and the event
    loop firing an interval timer. *)
Inductive HostEvent :=
| WillAppear (ev : ActionEvent)
| WillDisappear (ev : ActionEvent)
| DidReceiveSettings (ev : ActionEvent)
| KeyDown (ev : ActionEvent)
| TimerFires (handle : Timeout).

(** The handler of an event. *)
Definition dispatch (encodeURIComponent : string -> string)
    (JSON_stringify : Response -> string) (Number_toString : float -> string)
    (e : HostEvent) : Eff unit :=
  match e with
  | WillAppear ev => onWillAppear ev
  | WillDisappear ev => onWillDisappear ev
  | DidReceiveSettings ev =>
      onDidReceiveSettings encodeURIComponent JSON_stringify Number_toString ev
  | KeyDown ev => onKeyDown ev
  | TimerFires handle => timer_fires handle
  end.

(** The world after a sequence of events. A handler that throws rejects
    its own promise only: the next event is handled all the same. *)
Fixpoint run_events (encodeURIComponent : string -> string)
    (JSON_stringify : Response -> string) (Number_toString : float -> string)
    (events : list HostEvent) (env : Env) (w : World) : World :=
  match events with
  | [] => w
  | e :: events' =>
      run_events encodeURIComponent JSON_stringify Number_toString events' env
        (snd (dispatch encodeURIComponent JSON_stringify Number_toString e env w))
  end.

(** More kinds of calls. *)
Definition is_http_get (c : Call) : bool :=
  match c with http_get _ _ => true | _ => false end.
Definition is_logger_error (c : Call) : bool :=
  match c with logger_error _ => true | _ => false end.
Definition is_clearInterval (c : Call) : bool :=
  match c with loop_clearInterval _ => true | _ => false end.

(** The world with more calls in its trace. *)
Definition with_calls (new : list Call) (w : World) : World :=
  {| intervals := intervals w; timers := timers w; next_timer := next_timer w;
     images := images w; calls := calls w ++ new |}.

(** The data URI [updateButton] hands to [setImage] for a task list. *)
Definition icon_of (Number_toString : float -> string)
    (tasks : list Task) (settings : QuerySettings) : string :=
  "data:image/svg+xml;charset=utf8,"
    ++ getButtonSvg Number_toString (of_nat (length tasks)) settings.

(** A service that cannot be reached, and one whose answer is no JSON. *)
Definition unreachable_env : Env :=
  {| globalSettings := {| apiToken := "secret" |};
     remote := fun _ _ =>
       inl {| exn_name := "FetchError"; exn_message := "getaddrinfo ENOTFOUND" |} |}.

Definition garbled : Response :=
  {| status := 200; statusText := "OK";
     json := inl {| exn_name := "SyntaxError"; exn_message := "Unexpected token" |} |}.

Definition garbling_env : Env :=
  {| globalSettings := {| apiToken := "secret" |};
     remote := fun _ _ => inr garbled |}.

(** The cutoff a field holds, and the pairs of rungs of one ladder, the
    upper one tested before the lower one. *)
Definition cutoff_of (f : Cutoff) (s : QuerySettings) : option float :=
  match f with
  | G1 => g_cutoff_1 s | G2 => g_cutoff_2 s | G3 => g_cutoff_3 s
  | B1 => b_cutoff_1 s | B2 => b_cutoff_2 s | B3 => b_cutoff_3 s
  end.

Definition tested_before (upper lower : Cutoff) : bool :=
  match upper, lower with
  | G1, G2 | G1, G3 | G2, G3 | B1, B2 | B1, B3 | B2, B3 => true
  | _, _ => false
  end.

(** A colour field that, when it holds a colour, holds text that can
    stand in an attribute value. *)
Definition plain_color (c : option string) : bool :=
  match c with Some a => XML.value_text a | None => true end.

(** The eight colour fields of the settings. *)
Definition colors (s : QuerySettings) : list (option string) :=
  [g_color_1 s; g_color_2 s; g_color_3 s; g_color_4 s;
   b_color_1 s; b_color_2 s; b_color_3 s; b_color_4 s].

(** * Properties *)

(** ** The colour policy *)

(** A colour that is [null] or empty gives way to the default. *)
Lemma or_else_unset (d : string) : None |? d = d /\ Some "" |? d = d.
Proof. split; reflexivity. Qed.

Lemma or_else_set (c d : string) : c <> "" -> Some c |? d = c.
Proof.
  intros Hc. unfold or_else, truthy, string_ToBoolean.
  destruct (String.eqb_spec c ""); [contradiction | reflexivity].
Qed.

(** A cutoff passes the test [if (cutoff)] exactly when it is a number
    that is neither [NaN] nor a zero. *)
Lemma cutoff_set_iff (c : option float) :
  truthy c = true <->
  exists x, c = Some x /\ PrimFloat.eqb x x = true /\ PrimFloat.eqb x 0 = false.
Proof.
  destruct c as [x|]; unfold truthy, nullable_ToBoolean, truthy, number_ToBoolean.
  - rewrite andb_true_iff, negb_true_iff. split.
    + intros [H1 H2]. exists x. auto.
    + intros (y & Hy & H1 & H2). injection Hy as <-. auto.
  - split; [discriminate | intros (y & Hy & _); discriminate].
Qed.

(** The three branches of [getColor], one per guard. *)
Lemma getColor_G (count : float) (s : QuerySettings) :
  truthy (g_cutoff_1 s) = true ->
  getColor count s =
    if count >=? g_cutoff_1 s then g_color_1 s |? "green"
    else if truthy (g_cutoff_2 s) && (count >=? g_cutoff_2 s) then g_color_2 s |? "yellow"
    else if truthy (g_cutoff_3 s) && (count >=? g_cutoff_3 s) then g_color_3 s |? "orange"
    else g_color_4 s |? "red".
Proof. intros H. unfold getColor. now rewrite H. Qed.

Lemma getColor_B (count : float) (s : QuerySettings) :
  truthy (g_cutoff_1 s) = false ->
  truthy (b_cutoff_1 s) = true ->
  getColor count s =
    if count >=? b_cutoff_1 s then b_color_1 s |? "red"
    else if truthy (b_cutoff_2 s) && (count >=? b_cutoff_2 s) then b_color_2 s |? "orange"
    else if truthy (b_cutoff_3 s) && (count >=? b_cutoff_3 s) then b_color_3 s |? "yellow"
    else b_color_4 s |? "green".
Proof. intros HG HB. unfold getColor. now rewrite HG, HB. Qed.

Lemma getColor_neither (count : float) (s : QuerySettings) :
  truthy (g_cutoff_1 s) = false ->
  truthy (b_cutoff_1 s) = false ->
  getColor count s = "white".
Proof. intros HG HB. unfold getColor. now rewrite HG, HB. Qed.

(** Case analysis on the guards of a ladder. *)
Ltac rungs :=
  intros;
  repeat match goal with
         | |- context [if ?a && ?b then _ else _] =>
             destruct a eqn:?; destruct b eqn:?; cbn [andb]
         | |- context [if ?b then _ else _] => destruct b eqn:?
         end;
  try reflexivity; exfalso; intuition congruence.

(** C1: when the first cutoff of ladder G is set, [getColor] answers, for
    every count, colour 1 (default green) if the count reaches cutoff 1;
    otherwise colour 2 (default yellow) if cutoff 2 is set and reached;
    otherwise colour 3 (default orange) if cutoff 3 is set and reached;
    otherwise colour 4 (default red). With the cutoffs (10, 5, 2) the
    counts 15, 7, 3 and 1 get the colours 1, 2, 3 and 4. *)
Theorem getColor_ladder_G (count : float) (s : QuerySettings) :
  (truthy (g_cutoff_1 s) = true ->
     ((count >=? g_cutoff_1 s) = true ->
        getColor count s = g_color_1 s |? "green") /\
     ((count >=? g_cutoff_1 s) = false ->
      truthy (g_cutoff_2 s) = true /\ (count >=? g_cutoff_2 s) = true ->
        getColor count s = g_color_2 s |? "yellow") /\
     ((count >=? g_cutoff_1 s) = false ->
      ~ (truthy (g_cutoff_2 s) = true /\ (count >=? g_cutoff_2 s) = true) ->
      truthy (g_cutoff_3 s) = true /\ (count >=? g_cutoff_3 s) = true ->
        getColor count s = g_color_3 s |? "orange") /\
     ((count >=? g_cutoff_1 s) = false ->
      ~ (truthy (g_cutoff_2 s) = true /\ (count >=? g_cutoff_2 s) = true) ->
      ~ (truthy (g_cutoff_3 s) = true /\ (count >=? g_cutoff_3 s) = true) ->
        getColor count s = g_color_4 s |? "red")) /\
  (g_cutoff_1 s = Some 10%float -> g_cutoff_2 s = Some 5%float ->
   g_cutoff_3 s = Some 2%float ->
     getColor 15 s = g_color_1 s |? "green" /\
     getColor 7 s = g_color_2 s |? "yellow" /\
     getColor 3 s = g_color_3 s |? "orange" /\
     getColor 1 s = g_color_4 s |? "red").
Proof.
  split.
  - intros HG. rewrite (getColor_G count s HG). repeat split; rungs.
  - intros H1 H2 H3. unfold getColor. rewrite H1, H2, H3. repeat split.
Qed.

Lemma getColor_ladder_G_witness :
  truthy (g_cutoff_1 sample_settings) = true /\
  getColor 15 sample_settings = "#00ff00" /\
  getColor 7 sample_settings = "yellow" /\
  getColor 3 sample_settings = "orange" /\
  getColor 1 sample_settings = "red" /\
  getColor 2 sample_settings = "orange".
Proof.
  assert (rungs_at := fun count =>
            proj1 (getColor_ladder_G count sample_settings) eq_refl).
  split; [reflexivity|].
  split; [apply (proj1 (rungs_at 15%float)); reflexivity|].
  split; [apply (proj1 (proj2 (rungs_at 7%float))); [reflexivity | split; reflexivity]|].
  split; [|split].
  - apply (proj1 (proj2 (proj2 (rungs_at 3%float)))).
    + reflexivity.
    + intros [_ H]. vm_compute in H. discriminate H.
    + split; reflexivity.
  - apply (proj2 (proj2 (proj2 (rungs_at 1%float)))).
    + reflexivity.
    + intros [_ H]. vm_compute in H. discriminate H.
    + intros [_ H]. vm_compute in H. discriminate H.
  - apply (proj1 (proj2 (proj2 (rungs_at 2%float)))).
    + reflexivity.
    + intros [_ H]. vm_compute in H. discriminate H.
    + split; reflexivity.
Defined.

(** C2: when the first cutoff of ladder G is not set and the first cutoff
    of ladder B is, [getColor] answers colour 1 (default red) if the count
    reaches cutoff 1; otherwise colour 2 (default orange) if cutoff 2 is
    set and reached; otherwise colour 3 (default yellow) if cutoff 3 is
    set and reached; otherwise colour 4 (default green). With the cutoffs
    (10, 5, 2), 15 falls in the red slot and 1 in the green slot, and on
    the same cutoffs with no colour chosen ladder B answers the opposite
    of what ladder G answers. *)
Theorem getColor_ladder_B (count : float) (s : QuerySettings) :
  (truthy (g_cutoff_1 s) = false -> truthy (b_cutoff_1 s) = true ->
     ((count >=? b_cutoff_1 s) = true ->
        getColor count s = b_color_1 s |? "red") /\
     ((count >=? b_cutoff_1 s) = false ->
      truthy (b_cutoff_2 s) = true /\ (count >=? b_cutoff_2 s) = true ->
        getColor count s = b_color_2 s |? "orange") /\
     ((count >=? b_cutoff_1 s) = false ->
      ~ (truthy (b_cutoff_2 s) = true /\ (count >=? b_cutoff_2 s) = true) ->
      truthy (b_cutoff_3 s) = true /\ (count >=? b_cutoff_3 s) = true ->
        getColor count s = b_color_3 s |? "yellow") /\
     ((count >=? b_cutoff_1 s) = false ->
      ~ (truthy (b_cutoff_2 s) = true /\ (count >=? b_cutoff_2 s) = true) ->
      ~ (truthy (b_cutoff_3 s) = true /\ (count >=? b_cutoff_3 s) = true) ->
        getColor count s = b_color_4 s |? "green")) /\
  (truthy (g_cutoff_1 s) = false ->
   b_cutoff_1 s = Some 10%float -> b_cutoff_2 s = Some 5%float ->
   b_cutoff_3 s = Some 2%float ->
     getColor 15 s = b_color_1 s |? "red" /\
     getColor 1 s = b_color_4 s |? "green") /\
  (forall c1 c2 c3 : option float,
     truthy c1 = true ->
     getColor count (only_ladder_B c1 c2 c3)
       = opposite (getColor count (only_ladder_G c1 c2 c3))).
Proof.
  split; [|split].
  - intros HG HB. rewrite (getColor_B count s HG HB). repeat split; rungs.
  - intros HG H1 H2 H3. unfold getColor. rewrite HG, H1, H2, H3. repeat split.
  - intros c1 c2 c3 H1. unfold getColor, only_ladder_B, only_ladder_G. cbn.
    rewrite H1. rungs.
Qed.

Lemma getColor_ladder_B_witness :
  let s := with_cutoff G1 None sample_settings in
  truthy (g_cutoff_1 s) = false /\ truthy (b_cutoff_1 s) = true /\
  getColor 15 s = "red" /\ getColor 7 s = "#ffa500" /\
  getColor 3 s = "yellow" /\ getColor 1 s = "lime" /\
  getColor 7 (only_ladder_B (Some 10%float) (Some 5%float) None) = "orange".
Proof.
  intros s.
  assert (rungs_at := fun count =>
            proj1 (getColor_ladder_B count s) eq_refl eq_refl).
  split; [reflexivity|]. split; [reflexivity|].
  split; [apply (proj1 (rungs_at 15%float)); reflexivity|].
  split; [apply (proj1 (proj2 (rungs_at 7%float))); [reflexivity | split; reflexivity]|].
  split; [|split].
  - apply (proj1 (proj2 (proj2 (rungs_at 3%float)))).
    + reflexivity.
    + intros [_ H]. vm_compute in H. discriminate H.
    + split; reflexivity.
  - apply (proj1 (proj2 (getColor_ladder_B 1 s)) eq_refl eq_refl eq_refl eq_refl).
  - rewrite (proj2 (proj2 (getColor_ladder_B 7 s)) (Some 10%float) (Some 5%float) None eq_refl).
    reflexivity.
Defined.

(** C3: when the first cutoffs of both ladders are set, the colour depends
    on ladder G alone: settings with the same ladder G get the same
    colour, whatever their ladder B holds. *)
Theorem getColor_G_precedence (count : float) (s s' : QuerySettings) :
  truthy (g_cutoff_1 s) = true ->
  truthy (b_cutoff_1 s) = true ->
  same_ladder_G s s' ->
  getColor count s = getColor count s'.
Proof.
  intros HG _ (H1 & H2 & H3 & K1 & K2 & K3 & K4).
  rewrite (getColor_G count s HG).
  rewrite H1 in HG. rewrite (getColor_G count s' HG).
  now rewrite H1, H2, H3, K1, K2, K3, K4.
Qed.

Lemma getColor_G_precedence_witness :
  getColor 7 sample_settings
    = getColor 7 (with_cutoff B1 (Some 3%float) (with_cutoff B2 None sample_settings)).
Proof.
  apply getColor_G_precedence; [reflexivity | reflexivity |].
  repeat split.
Defined.

(** C4: when the first cutoff of neither ladder is set, the colour is
    white, whatever the count and the other fields. *)
Theorem getColor_white (count : float) (s : QuerySettings) :
  truthy (g_cutoff_1 s) = false ->
  truthy (b_cutoff_1 s) = false ->
  getColor count s = "white".
Proof. apply getColor_neither. Qed.

Lemma getColor_white_witness :
  getColor 7 (with_cutoff G1 None (with_cutoff B1 None sample_settings)) = "white".
Proof. apply getColor_white; reflexivity. Defined.

(** C9: a cutoff that holds 0 counts as unset. Replacing the 0 by [null]
    in any of the six cutoff fields leaves the colour of every count
    unchanged: a first cutoff of 0 hands over to ladder B or to white, and
    a second or third cutoff of 0 is a rung never taken, although every
    count from 0 on reaches it. *)
Theorem getColor_zero_cutoff_unset (f : Cutoff) (count : float) (s : QuerySettings) :
  getColor count (with_cutoff f (Some 0%float) s)
    = getColor count (with_cutoff f None s) /\
  (truthy (b_cutoff_1 s) = false ->
     getColor count (with_cutoff G1 (Some 0%float) s) = "white") /\
  ((3 >=? Some 0) = true /\
   getColor 3 (with_cutoff G2 (Some 0%float) (only_ladder_G (Some 10%float) None None)) = "red" /\
   getColor 3 (with_cutoff B3 (Some 0%float) (only_ladder_B (Some 10%float) None None)) = "green")%float.
Proof.
  split; [|split].
  - destruct f; reflexivity.
  - intros HB. now apply getColor_neither.
  - repeat split.
Qed.

Lemma getColor_zero_cutoff_unset_witness :
  getColor 7 (with_cutoff G1 (Some 0%float) (with_cutoff B1 None sample_settings)) = "white".
Proof.
  apply (proj1 (proj2 (getColor_zero_cutoff_unset G1 7 (with_cutoff B1 None sample_settings)))).
  reflexivity.
Defined.

(** ** The remote query and the refresh pipeline *)

Section Pipeline.

Variable encodeURIComponent : string -> string.
Variable JSON_stringify : Response -> string.
Variable Number_toString : float -> string.

Local Abbreviation run_getTasks := (getTasks encodeURIComponent JSON_stringify).
Local Abbreviation run_updateButton :=
  (updateButton encodeURIComponent JSON_stringify Number_toString).

(** What [getTasks] does when the service answers with a status outside
    200..299. *)
Lemma getTasks_not_ok (env : Env) (w : World) (token filter_expr : string) (response : Response) :
  let url := tasks_url encodeURIComponent filter_expr in
  remote env url ("Bearer " ++ token) = inr response ->
  ok response = false ->
  run_getTasks token filter_expr env w =
    (Thrown (RemoteQueryError (statusText response)),
     {| intervals := intervals w; timers := timers w; next_timer := next_timer w;
        images := images w;
        calls := ((calls w ++ [logger_debug ("Fetching tasks from " ++ url)])
                    ++ [http_get url ("Bearer " ++ token)])
                    ++ [logger_error ("Error fetching tasks: " ++ statusText response)] |}).
Proof.
  intros url Hremote Hok.
  unfold getTasks, fetch, logger_debug_, logger_error_, record.
  unfold mbind, Eff_bind, get, put, ask, throw, mret, Eff_ret. cbn.
  fold (tasks_url encodeURIComponent filter_expr). fold url.
  rewrite Hremote. cbn. rewrite Hok. cbn. reflexivity.
Qed.

(** [updateButton] step by step: the global settings are read, the
    tasks are queried, and only a successful query reaches [setImage]. *)
Lemma updateButton_run (env : Env) (w : World) (settings : QuerySettings) (action : string) :
  run_updateButton settings action env w =
    match run_getTasks (apiToken (globalSettings env)) (item_filter settings) env
            {| intervals := intervals w; timers := timers w; next_timer := next_timer w;
               images := images w; calls := calls w ++ [host_getGlobalSettings] |} with
    | (Returned tasks, w1) =>
        Action_setImage action
          ("data:image/svg+xml;charset=utf8,"
             ++ getButtonSvg Number_toString (of_nat (length tasks)) settings) env w1
    | (Thrown e, w1) => (Thrown e, w1)
    end.
Proof. reflexivity. Qed.

(** The calls a run adds to the trace hold no [setImage]. *)
Lemma no_setImage_app (old new : list Call) :
  forallb (fun c => negb (is_setImage c)) new = true ->
  List.filter is_setImage (old ++ new)%list = List.filter is_setImage old.
Proof.
  intros Hnew. rewrite List.filter_app.
  replace (List.filter is_setImage new) with (@nil Call); [apply app_nil_r|].
  induction new as [|c new IH]; [reflexivity|].
  cbn in Hnew |- *. destruct (is_setImage c); [discriminate | auto].
Qed.

(** C5: when the service answers with a non-success status, [getTasks]
    throws the query error instead of returning tasks, and
    [updateButton] rejects with it without calling [setImage]: the
    image every instance displays is the one it displayed before. *)
Theorem failed_fetch_keeps_icon (env : Env) (w : World)
    (token filter_expr : string) (response : Response) :
  remote env (tasks_url encodeURIComponent filter_expr) ("Bearer " ++ token) = inr response ->
  ok response = false ->
  (exists w', run_getTasks token filter_expr env w
                = (Thrown (RemoteQueryError (statusText response)), w')) /\
  (forall (settings : QuerySettings) (action : string),
     apiToken (globalSettings env) = token ->
     item_filter settings = filter_expr ->
     exists w', run_updateButton settings action env w
                  = (Thrown (RemoteQueryError (statusText response)), w') /\
                images w' = images w /\
                List.filter is_setImage (calls w') = List.filter is_setImage (calls w) /\
                registrations w' = registrations w).
Proof.
  intros Hremote Hok. split.
  - eexists. apply getTasks_not_ok; assumption.
  - intros settings action Htoken Hfilter.
    rewrite updateButton_run, Htoken, Hfilter.
    rewrite (getTasks_not_ok env _ token filter_expr response Hremote Hok).
    eexists. split; [reflexivity|]. cbn. split; [reflexivity|]. split; [|reflexivity].
    rewrite <- !app_assoc. apply no_setImage_app. reflexivity.
Qed.

End Pipeline.

Lemma failed_fetch_keeps_icon_witness :
  ok unauthorized = false /\
  exists w',
    updateButton URI.encodeURIComponent Response_stringify JSNumber.toString
      sample_settings "button-1" refusing_env initial_world
      = (Thrown (RemoteQueryError "Unauthorized"), w') /\
    images w' = images initial_world.
Proof.
  split; [reflexivity|].
  destruct (failed_fetch_keeps_icon URI.encodeURIComponent Response_stringify
              JSNumber.toString refusing_env initial_world "secret" "today | overdue"
              unauthorized eq_refl eq_refl) as [_ Hupdate].
  destruct (Hupdate sample_settings "button-1" eq_refl eq_refl)
    as (w' & Hrun & Himages & _).
  exists w'. split; assumption.
Defined.

(** A successful query does reach [setImage]. *)
Lemma updateButton_ok (enc : string -> string) (str : Response -> string)
    (toS : float -> string) (env : Env) (w : World)
    (settings : QuerySettings) (action : string) (response : Response) (tasks : list Task) :
  remote env (tasks_url enc (item_filter settings))
    ("Bearer " ++ apiToken (globalSettings env)) = inr response ->
  ok response = true ->
  json response = inr tasks ->
  exists w', updateButton enc str toS settings action env w = (Returned tt, w') /\
    images w' !! action
      = Some ("data:image/svg+xml;charset=utf8,"
                ++ getButtonSvg toS (of_nat (length tasks)) settings).
Proof.
  intros Hremote Hok Hjson.
  unfold updateButton, getTasks, getGlobalSettings, fetch, Response_json,
    Action_setImage, logger_debug_, logger_error_, record.
  unfold mbind, Eff_bind, get, put, ask, throw, mret, Eff_ret. cbn.
  fold (tasks_url enc (item_filter settings)).
  rewrite Hremote. cbn. rewrite Hok. cbn. rewrite Hjson.
  eexists. split; [reflexivity|]. cbn. apply lookup_insert_eq.
Qed.

(** ** The timers *)

Lemma World_eta (w : World) :
  {| intervals := intervals w; timers := timers w; next_timer := next_timer w;
     images := images w; calls := calls w |} = w.
Proof. now destruct w. Qed.

Lemma startTimerIfNeeded_run (ev : ActionEvent) (env : Env) (w : World) :
  startTimerIfNeeded ev env w = (Returned tt, timer_started (action_id ev) w).
Proof.
  unfold startTimerIfNeeded, timer_started, intervals_has, setInterval, intervals_set.
  unfold mbind, Eff_bind, get, put, mret, Eff_ret. cbn.
  destruct (intervals w !! action_id ev) as [h|]; reflexivity.
Qed.

Lemma onWillAppear_run (ev : ActionEvent) (env : Env) (w : World) :
  onWillAppear ev env w = (Returned tt, appeared ev w).
Proof.
  unfold onWillAppear, appeared.
  unfold mbind at 1. unfold Eff_bind at 1. rewrite startTimerIfNeeded_run.
  destruct (truthy (item_filter (payload_settings ev))); reflexivity.
Qed.

Lemma onWillDisappear_run (ev : ActionEvent) (env : Env) (w : World) :
  onWillDisappear ev env w = (Returned tt, disappeared (action_id ev) w).
Proof.
  unfold onWillDisappear, disappeared, intervals_has, intervals_get, clearInterval,
    intervals_delete.
  unfold mbind, Eff_bind, get, put, mret, Eff_ret. cbn.
  destruct (intervals w !! action_id ev) as [h|] eqn:E; cbn; rewrite ?E; reflexivity.
Qed.

(** [onWillDisappear] for an instance that has no timer changes nothing. *)
Lemma onWillDisappear_unregistered (ev : ActionEvent) (env : Env) (w : World) :
  intervals w !! action_id ev = None ->
  onWillDisappear ev env w = (Returned tt, w).
Proof.
  intros H. rewrite onWillDisappear_run. unfold disappeared. now rewrite H.
Qed.

Lemma consistent_initial : consistent initial_world.
Proof.
  split; cbn.
  - intros context h H. now rewrite lookup_empty in H.
  - intros h context ms H. now rewrite lookup_empty in H.
  - intros h [x H]. now rewrite lookup_empty in H.
Qed.

(** Consistency speaks of the registrations only. *)
Lemma consistent_registrations (w w' : World) :
  registrations w' = registrations w -> consistent w -> consistent w'.
Proof.
  unfold registrations. intros H [I1 I2 I3].
  injection H as Hi Ht Hn.
  split; rewrite ?Hi, ?Ht, ?Hn; assumption.
Qed.

Lemma timer_started_registered (context : string) (w : World) :
  is_Some (intervals (timer_started context w) !! context).
Proof.
  unfold timer_started.
  destruct (intervals w !! context) as [h|] eqn:E.
  - rewrite E. eauto.
  - cbn. rewrite lookup_insert_eq. eauto.
Qed.

Lemma timer_started_again (context : string) (w : World) :
  is_Some (intervals w !! context) -> timer_started context w = w.
Proof. intros [h H]. unfold timer_started. now rewrite H. Qed.

Lemma timer_started_consistent (context : string) (w : World) :
  consistent w -> consistent (timer_started context w).
Proof.
  intros [I1 I2 I3]. unfold timer_started.
  destruct (intervals w !! context) as [h0|] eqn:E; [now split|].
  assert (Hfresh : timers w !! next_timer w = None).
  { destruct (timers w !! next_timer w) eqn:T; [|reflexivity].
    specialize (I3 (next_timer w) (ex_intro _ _ T)). lia. }
  split; cbn.
  - intros c h H. destruct (decide (context = c)) as [<-|Hne].
    + rewrite lookup_insert_eq in H. injection H as <-. now rewrite lookup_insert_eq.
    + rewrite lookup_insert_ne in H by assumption.
      rewrite lookup_insert_ne; [now apply I1|].
      intros <-. apply I1 in H. congruence.
  - intros h c ms H. destruct (decide (next_timer w = h)) as [<-|Hne].
    + rewrite lookup_insert_eq in H. injection H as <- <-. now rewrite lookup_insert_eq.
    + rewrite lookup_insert_ne in H by assumption.
      rewrite lookup_insert_ne; [now apply I2 with ms|].
      intros <-. apply I2 in H. congruence.
  - intros h [x H]. destruct (decide (next_timer w = h)) as [<-|Hne]; [lia|].
    rewrite lookup_insert_ne in H by assumption.
    specialize (I3 h (ex_intro _ _ H)). lia.
Qed.

Lemma appeared_registrations (ev : ActionEvent) (w : World) :
  registrations (appeared ev w) = registrations (timer_started (action_id ev) w).
Proof. unfold appeared. now destruct (truthy (item_filter (payload_settings ev))). Qed.

Lemma appeared_timers_created (ev : ActionEvent) (w : World) :
  List.filter is_setInterval (calls (appeared ev w))
    = List.filter is_setInterval (calls (timer_started (action_id ev) w)).
Proof.
  unfold appeared. destruct (truthy (item_filter (payload_settings ev))); [|reflexivity].
  cbn. rewrite List.filter_app. apply app_nil_r.
Qed.

Lemma appeared_consistent (ev : ActionEvent) (w : World) :
  consistent w -> consistent (appeared ev w).
Proof.
  intros H. apply (consistent_registrations (timer_started (action_id ev) w)).
  - apply appeared_registrations.
  - now apply timer_started_consistent.
Qed.

Lemma disappeared_consistent (context : string) (w : World) :
  consistent w -> consistent (disappeared context w).
Proof.
  intros [I1 I2 I3]. unfold disappeared.
  destruct (intervals w !! context) as [h0|] eqn:E; [|now split].
  split; cbn.
  - intros c h H. apply lookup_delete_Some in H as [Hne H].
    rewrite lookup_delete_ne; [now apply I1|].
    intros <-. apply I1 in H. apply I1 in E. congruence.
  - intros h c ms H. apply lookup_delete_Some in H as [Hne H].
    rewrite lookup_delete_ne; [now apply I2 with ms|].
    intros <-. apply I2 in H. congruence.
  - intros h [x H]. apply lookup_delete_Some in H as [_ H]. apply I3. eauto.
Qed.

(** Appearances of one instance, run in a row. *)
Lemma handle_each_appear (evs : list ActionEvent) (env : Env) (w : World) :
  handle_each onWillAppear evs env w
    = (Returned tt, fold_left (fun w' ev => appeared ev w') evs w).
Proof.
  revert w. induction evs as [|ev evs IH]; intros w; [reflexivity|].
  cbn [handle_each fold_left]. unfold mbind, Eff_bind.
  rewrite onWillAppear_run. apply IH.
Qed.

Lemma appeared_again (context : string) (evs : list ActionEvent) (w : World) :
  Forall (fun ev => action_id ev = context) evs ->
  is_Some (intervals w !! context) ->
  let w' := fold_left (fun w' ev => appeared ev w') evs w in
  registrations w' = registrations w /\
  List.filter is_setInterval (calls w') = List.filter is_setInterval (calls w).
Proof.
  intros Hall. revert w. induction Hall as [|ev evs Hev Hall IH]; intros w Hreg.
  - split; reflexivity.
  - cbn [fold_left]. destruct (IH (appeared ev w)) as [IHr IHc].
    + assert (R := appeared_registrations ev w). unfold registrations in R.
      injection R as -> _ _. rewrite Hev. apply timer_started_registered.
    + cbn zeta. rewrite IHr, IHc, appeared_registrations, appeared_timers_created.
      rewrite Hev, timer_started_again by assumption. split; reflexivity.
Qed.

(** C6: starting the timer is idempotent. After [onWillAppear] has run
    once for an instance, running it again for the same instance, any
    number of times, changes neither the map, nor the live timers, nor
    the number of timers ever created; in a consistent world exactly one
    timer is then alive for the instance, the one the map holds. *)
Theorem onWillAppear_idempotent (env : Env) (w : World)
    (ev : ActionEvent) (evs : list ActionEvent) :
  Forall (fun ev' => action_id ev' = action_id ev) evs ->
  exists w1 wn,
    onWillAppear ev env w = (Returned tt, w1) /\
    handle_each onWillAppear (ev :: evs) env w = (Returned tt, wn) /\
    registrations wn = registrations w1 /\
    List.filter is_setInterval (calls wn) = List.filter is_setInterval (calls w1) /\
    (consistent w ->
       consistent wn /\
       exists h, intervals wn !! action_id ev = Some h /\
         forall h' ms, timers wn !! h' = Some (action_id ev, ms)
                       <-> h' = h /\ ms = 60000%Z).
Proof.
  intros Hall.
  exists (appeared ev w), (fold_left (fun w' ev' => appeared ev' w') evs (appeared ev w)).
  assert (Hreg : is_Some (intervals (appeared ev w) !! action_id ev)).
  { assert (R := appeared_registrations ev w). unfold registrations in R.
    injection R as -> _ _. apply timer_started_registered. }
  destruct (appeared_again (action_id ev) evs (appeared ev w) Hall Hreg) as [Hr Hc].
  split; [apply onWillAppear_run|].
  split; [rewrite handle_each_appear; reflexivity|].
  split; [exact Hr|]. split; [exact Hc|].
  intros Hw.
  assert (Hn : consistent (fold_left (fun w' ev' => appeared ev' w') evs (appeared ev w))).
  { apply (consistent_registrations (appeared ev w)); [exact Hr|].
    now apply appeared_consistent. }
  split; [exact Hn|].
  unfold registrations in Hr. injection Hr as Hi Ht _.
  destruct Hreg as [h Hh]. exists h. rewrite Hi. split; [exact Hh|].
  intros h' ms. destruct Hn as [I1 I2 _]. rewrite Hi in I1, I2. split.
  - intros H. assert (H' := I2 _ _ _ H). rewrite Hh in H'. injection H' as <-.
    split; [reflexivity|]. apply I1 in Hh. rewrite H in Hh. now injection Hh.
  - intros [-> ->]. now apply I1.
Qed.

Lemma onWillAppear_idempotent_witness :
  exists wn,
    handle_each onWillAppear [sample_event; sample_event; sample_event] refusing_env initial_world
      = (Returned tt, wn) /\
    intervals wn !! "button-1" = Some 1%positive /\
    forall h' ms, timers wn !! h' = Some ("button-1", ms) <-> h' = 1%positive /\ ms = 60000%Z.
Proof.
  destruct (onWillAppear_idempotent refusing_env initial_world sample_event
              [sample_event; sample_event])
    as (w1 & wn & H1 & Hn & Hr & _ & Hone).
  { repeat constructor. }
  destruct (Hone consistent_initial) as (_ & h & Hh & Htimers).
  exists wn. split; [exact Hn|].
  assert (Hh1 : h = 1%positive).
  { rewrite onWillAppear_run in H1. injection H1 as <-.
    unfold registrations in Hr. injection Hr as Hi _ _. rewrite Hi in Hh.
    vm_compute in Hh. now injection Hh. }
  subst h. split; assumption.
Defined.

Lemma truthy_string (s : string) : truthy s = true <-> s <> "".
Proof.
  unfold truthy, string_ToBoolean. destruct (String.eqb_spec s ""); cbn.
  - split; [discriminate | contradiction].
  - split; auto.
Qed.

(** C7: [onWillAppear] asks for the settings exactly once when the filter
    of the button is not empty, and not at all when it is empty; either
    way the instance has its 60-second timer afterwards, created by this
    very run when the instance had none. *)
Theorem onWillAppear_refresh (env : Env) (w : World) (ev : ActionEvent) :
  exists w',
    onWillAppear ev env w = (Returned tt, w') /\
    (item_filter (payload_settings ev) <> "" ->
       List.filter is_getSettings (calls w')
         = (List.filter is_getSettings (calls w) ++ [host_getSettings (action_id ev)])%list) /\
    (item_filter (payload_settings ev) = "" ->
       List.filter is_getSettings (calls w') = List.filter is_getSettings (calls w)) /\
    (intervals w !! action_id ev = None ->
       intervals w' !! action_id ev = Some (next_timer w) /\
       timers w' !! next_timer w = Some (action_id ev, 60000%Z)) /\
    (consistent w ->
       exists h, intervals w' !! action_id ev = Some h /\
                 timers w' !! h = Some (action_id ev, 60000%Z)).
Proof.
  exists (appeared ev w). split; [apply onWillAppear_run|].
  assert (Hstart : List.filter is_getSettings (calls (timer_started (action_id ev) w))
                   = List.filter is_getSettings (calls w)).
  { unfold timer_started. destruct (intervals w !! action_id ev); [reflexivity|].
    cbn. rewrite List.filter_app. apply app_nil_r. }
  assert (R := appeared_registrations ev w). unfold registrations in R.
  injection R as Ri Rt _.
  repeat split.
  - intros Hf. apply truthy_string in Hf. unfold appeared. rewrite Hf. cbn.
    rewrite List.filter_app, Hstart. reflexivity.
  - intros Hf. unfold appeared. rewrite Hf. cbn. exact Hstart.
  - rewrite Ri. unfold timer_started. rewrite H. cbn. apply lookup_insert_eq.
  - rewrite Rt. unfold timer_started. rewrite H. cbn. apply lookup_insert_eq.
  - intros Hw. apply (timer_started_consistent (action_id ev)) in Hw.
    destruct (timer_started_registered (action_id ev) w) as [h Hh].
    exists h. rewrite Ri, Rt. split; [exact Hh|]. now apply (registered_alive _ Hw).
Qed.

Lemma onWillAppear_refresh_witness :
  (exists w',
     onWillAppear sample_event refusing_env initial_world = (Returned tt, w') /\
     List.filter is_getSettings (calls w') = [host_getSettings "button-1"] /\
     timers w' !! 1%positive = Some ("button-1", 60000%Z)) /\
  (exists w',
     onWillAppear unfiltered_event refusing_env initial_world = (Returned tt, w') /\
     List.filter is_getSettings (calls w') = [] /\
     exists h, intervals w' !! "button-2" = Some h /\
               timers w' !! h = Some ("button-2", 60000%Z)).
Proof.
  split.
  - destruct (onWillAppear_refresh refusing_env initial_world sample_event)
      as (w' & Hrun & Hone & _ & Hnew & _).
    exists w'. split; [exact Hrun|]. split.
    + apply Hone. discriminate.
    + apply Hnew. reflexivity.
  - destruct (onWillAppear_refresh refusing_env initial_world unfiltered_event)
      as (w' & Hrun & _ & Hnone & _ & Htimer).
    exists w'. split; [exact Hrun|]. split.
    + apply Hnone. reflexivity.
    + apply Htimer. exact consistent_initial.
Defined.
Example xml_samples :
  XML.well_formed ("<a x=" ++ dquote ++ "1" ++ dquote ++ "><b/>text</a>") = true /\
  XML.well_formed ("<a x = " ++ dquote ++ "1 > 0" ++ dquote ++ " >a]] > b]</a >") = true /\
  XML.well_formed "<a><b></a></b>" = false /\
  XML.well_formed "<a></a><b/>" = false /\
  XML.well_formed ("<a x=" ++ dquote ++ dquote ++ " x=" ++ dquote ++ dquote ++ "/>") = false /\
  XML.well_formed "<a>1 < 2</a>" = false /\
  XML.well_formed "<a>]]></a>" = false /\
  XML.well_formed ("<a>" ++ String "001" "</a>") = false /\
  XML.well_formed ("<a x=" ++ dquote ++ String "001" dquote ++ "/>") = false /\
  XML.well_formed "<a x=1/>" = false /\
  XML.well_formed "" = false.
Proof. repeat split. Qed.

(** ** Font sizes *)

(** Comparing two doubles the other way round gives the opposite answer. *)
Lemma SFcompare_antisym (x y : spec_float) :
  SFcompare y x = option_map CompOpp (SFcompare x y).
Proof.
  destruct x as [sx|sx| |sx mx ex], y as [sy|sy| |sy my ey]; cbn;
    try reflexivity;
    try (destruct sx; reflexivity); try (destruct sy; reflexivity);
    try (destruct sx, sy; reflexivity).
  assert (A := Pos.compare_cont_antisym mx my Eq). cbn in A.
  destruct sx, sy; try reflexivity;
    rewrite (Z.compare_antisym ex ey); destruct (ex ?= ey)%Z; cbn; try reflexivity;
    rewrite <- A; destruct (Pos.compare_cont Eq mx my); reflexivity.
Qed.

Lemma SFcompare_defined (x y : spec_float) :
  SFeqb x x = true -> SFeqb y y = true -> exists c, SFcompare x y = Some c.
Proof.
  unfold SFeqb.
  destruct x as [sx|sx| |sx mx ex], y as [sy|sy| |sy my ey]; cbn;
    try discriminate; eauto.
Qed.

(** [Math.min] of two numbers other than [NaN] is one of the two, and is
    below both. *)
Lemma Math_min_least (x y : float) :
  PrimFloat.eqb x x = true -> PrimFloat.eqb y y = true ->
  (Math_min x y = x \/ Math_min x y = y) /\
  PrimFloat.leb (Math_min x y) x = true /\ PrimFloat.leb (Math_min x y) y = true.
Proof.
  intros Hx Hy. unfold Math_min. rewrite Hx, Hy. cbn [negb].
  assert (Hxx : PrimFloat.leb x x = true).
  { rewrite FloatAxioms.leb_spec. rewrite FloatAxioms.eqb_spec in Hx. unfold SFleb, SFeqb in *.
    destruct (SFcompare (Prim2SF x) (Prim2SF x)) as [[]|]; congruence. }
  assert (Hyy : PrimFloat.leb y y = true).
  { rewrite FloatAxioms.leb_spec. rewrite FloatAxioms.eqb_spec in Hy. unfold SFleb, SFeqb in *.
    destruct (SFcompare (Prim2SF y) (Prim2SF y)) as [[]|]; congruence. }
  rewrite FloatAxioms.eqb_spec in Hx, Hy.
  destruct (SFcompare_defined _ _ Hx Hy) as [c Hc].
  assert (Hc' := SFcompare_antisym (Prim2SF x) (Prim2SF y)). rewrite Hc in Hc'. cbn in Hc'.
  assert (Hlt : PrimFloat.ltb x y = match c with Lt => true | _ => false end).
  { rewrite FloatAxioms.ltb_spec. unfold SFltb. now rewrite Hc. }
  assert (Hgt : PrimFloat.ltb y x = match c with Gt => true | _ => false end).
  { rewrite FloatAxioms.ltb_spec. unfold SFltb. rewrite Hc'. now destruct c. }
  assert (Hle : PrimFloat.leb x y = match c with Gt => false | _ => true end).
  { rewrite FloatAxioms.leb_spec. unfold SFleb. now rewrite Hc. }
  assert (Hge : PrimFloat.leb y x = match c with Lt => false | _ => true end).
  { rewrite FloatAxioms.leb_spec. unfold SFleb. rewrite Hc'. now destruct c. }
  rewrite Hlt, Hgt. destruct c.
  - destruct (get_sign x); auto.
  - auto.
  - auto.
Qed.

(** [NaN] is contagious. *)
Lemma Math_min_nan (x y : float) :
  PrimFloat.eqb x x = false \/ PrimFloat.eqb y y = false -> Math_min x y = nan.
Proof.
  unfold Math_min. intros [H|H]; rewrite H; cbn; [reflexivity|].
  now destruct (PrimFloat.eqb x x).
Qed.

Lemma string_app_assoc (a b c : string) : (a ++ b) ++ c = a ++ b ++ c.
Proof.
  induction a as [|x a IH]; [reflexivity|].
  change (String x ((a ++ b) ++ c) = String x (a ++ b ++ c)). now f_equal.
Qed.

(** The document [getButtonSvg] returns, with the two font sizes written
    out. *)
Lemma getButtonSvg_text (Number_toString : float -> string)
    (taskCount : float) (settings : QuerySettings) :
  let mainText := Number_toString taskCount ++ " Tasks" in
  getButtonSvg Number_toString taskCount settings =
    "<svg " ++ svg_attr "width" "144" ++ " " ++ svg_attr "height" "144" ++ " "
      ++ svg_attr "xmlns" "http://www.w3.org/2000/svg" ++ ">" ++ newline
      ++ "    <rect " ++ svg_attr "width" "144" ++ " " ++ svg_attr "height" "144" ++ " "
      ++ svg_attr "fill" (getColor taskCount settings) ++ " />" ++ newline
      ++ svg_text Number_toString "72"
           (Math_min (140 / (of_nat (String.length mainText) * 0.45))%float 40) mainText
      ++ svg_text Number_toString "135"
           (Math_min (140 / (of_nat (String.length (item_name settings)) * 0.45))%float 28)
           (item_name settings)
      ++ "    </svg>".
Proof. reflexivity. Qed.

(** C8: the font size of a line of the icon is the minimum of
    [width / (length * 0.45)] and the maximum size of the line. For a
    text of 7 code units, the width 140 and the maximum 40 the quotient is
    44.44... and the size is exactly 40. *)
Theorem getFontSize_formula (Number_toString : float -> string)
    (text : string) (maxWidth maxFontSize : float) :
  (1 <= String.length text)%nat ->
  let quotient := (maxWidth / (of_nat (String.length text) * 0.45))%float in
  getFontSize text maxWidth maxFontSize = Math_min quotient maxFontSize /\
  (PrimFloat.eqb quotient quotient = true ->
   PrimFloat.eqb maxFontSize maxFontSize = true ->
     (getFontSize text maxWidth maxFontSize = quotient \/
      getFontSize text maxWidth maxFontSize = maxFontSize) /\
     PrimFloat.leb (getFontSize text maxWidth maxFontSize) quotient = true /\
     PrimFloat.leb (getFontSize text maxWidth maxFontSize) maxFontSize = true) /\
  (forall (taskCount : float) (settings : QuerySettings),
     let mainText := Number_toString taskCount ++ " Tasks" in
     getButtonSvg Number_toString taskCount settings =
       "<svg " ++ svg_attr "width" "144" ++ " " ++ svg_attr "height" "144" ++ " "
         ++ svg_attr "xmlns" "http://www.w3.org/2000/svg" ++ ">" ++ newline
         ++ "    <rect " ++ svg_attr "width" "144" ++ " " ++ svg_attr "height" "144" ++ " "
         ++ svg_attr "fill" (getColor taskCount settings) ++ " />" ++ newline
         ++ svg_text Number_toString "72"
              (Math_min (140 / (of_nat (String.length mainText) * 0.45))%float 40) mainText
         ++ svg_text Number_toString "135"
              (Math_min (140 / (of_nat (String.length (item_name settings)) * 0.45))%float 28)
              (item_name settings)
         ++ "    </svg>") /\
  (String.length text = 7%nat ->
     (140 / (of_nat 7 * 0.45) = 44.44444444444444)%float /\
     getFontSize text 140 40 = 40%float).
Proof.
  intros _ quotient. split; [reflexivity|]. split; [|split].
  - intros Hq Hm. apply (Math_min_least quotient maxFontSize Hq Hm).
  - intros taskCount settings. apply getButtonSvg_text.
  - intros H7. unfold getFontSize. rewrite H7. split; reflexivity.
Qed.

Lemma getFontSize_formula_witness :
  let text := JSNumber.toString 5 ++ " Tasks" in
  String.length text = 7%nat /\
  getFontSize text 140 40 = 40%float /\
  PrimFloat.leb (getFontSize text 140 28) 28 = true.
Proof.
  intros text.
  assert (H1 : (1 <= String.length text)%nat) by (vm_compute; lia).
  split; [reflexivity|]. split.
  - apply (proj2 (proj2 (proj2 (getFontSize_formula JSNumber.toString text 140 40 H1)))).
    reflexivity.
  - apply (proj1 (proj2 (getFontSize_formula JSNumber.toString text 140 28 H1)));
      reflexivity.
Defined.

(** ** The icon is well-formed markup *)

Lemma scan_app_some (st st' : XML.state) (a b : string) :
  XML.scan st a = Some st' -> XML.scan st (a ++ b) = XML.scan st' b.
Proof.
  revert st. induction a as [|c a IH]; intros st H.
  - cbn in H. injection H as <-. reflexivity.
  - change (XML.scan st (String c (a ++ b)) = XML.scan st' b).
    cbn [XML.scan] in H |- *. destruct (XML.step st c) as [st1|]; [|discriminate].
    now apply IH.
Qed.

Lemma scan_app_none (st : XML.state) (a b : string) :
  XML.scan st a = None -> XML.scan st (a ++ b) = None.
Proof.
  revert st. induction a as [|c a IH]; intros st H; [discriminate|].
  change (XML.scan st (String c (a ++ b)) = None).
  cbn [XML.scan] in H |- *. destruct (XML.step st c) as [st1|]; [|reflexivity].
  now apply IH.
Qed.

(** Value text leaves the scanner inside the attribute value. *)
Lemma scan_value (name : string) (attrs opn : list string) (rd : bool) (v : string) :
  XML.value_text v = true ->
  let st := {| XML.mode_of := XML.AttrValue name attrs; XML.open := opn; XML.root_done := rd |} in
  XML.scan st v = Some st.
Proof.
  intros Hv st.
  induction v as [|c v IH]; [reflexivity|].
  unfold XML.value_text in Hv. cbn [list_ascii_of_string forallb] in Hv.
  apply andb_true_iff in Hv as [Hc Hv].
  cbn [XML.scan]. unfold XML.step at 1. cbn [XML.mode_of st].
  unfold XML.value_char in Hc. apply andb_true_iff in Hc as [Hvalid Hc].
  rewrite Hvalid.
  destruct (Ascii.eqb c "<"), (Ascii.eqb c "&"), (Ascii.eqb c "034"); try discriminate.
  cbn. now apply IH.
Qed.

(** Character data leaves the scanner in the content of the element,
    with some closing brackets read. *)
Lemma scan_text (top : string) (opn : list string) (rd : bool) (v : string) :
  forall closing,
    XML.chardata_from closing v = true ->
    exists closing',
      XML.scan {| XML.mode_of := XML.Content closing; XML.open := top :: opn;
                  XML.root_done := rd |} v
        = Some {| XML.mode_of := XML.Content closing'; XML.open := top :: opn;
                  XML.root_done := rd |}.
Proof.
  induction v as [|c v IH]; intros closing Hv; [now exists closing|].
  cbn [XML.chardata_from] in Hv.
  cbn [XML.scan]. unfold XML.step at 1. cbn [XML.mode_of XML.open XML.root_done].
  destruct (Ascii.eqb c "<"); [discriminate|].
  destruct (Ascii.eqb c "&"); [discriminate|]. cbn [orb] in Hv.
  destruct (Ascii.eqb c "]"); [exact (IH _ Hv)|].
  destruct (Ascii.eqb c ">").
  - apply andb_true_iff in Hv as [Hclosing Hv].
    destruct (2 <=? closing)%nat; [discriminate|]. exact (IH _ Hv).
  - apply andb_true_iff in Hv as [Hvalid Hv]. rewrite Hvalid. exact (IH _ Hv).
Qed.

(** The closing brackets read matter only to a [>] or to one more
    bracket. *)
Lemma step_after_text (closing : nat) (top : string) (opn : list string) (rd : bool)
    (c : ascii) :
  Ascii.eqb c "]" || Ascii.eqb c ">" = false ->
  XML.step {| XML.mode_of := XML.Content closing; XML.open := top :: opn;
              XML.root_done := rd |} c
    = XML.step {| XML.mode_of := XML.Content 0; XML.open := top :: opn;
                  XML.root_done := rd |} c.
Proof.
  intros Hc. apply orb_false_iff in Hc as [H1 H2].
  unfold XML.step. cbn [XML.mode_of XML.open]. now rewrite H1, H2.
Qed.

Lemma accepts_literal (st st' : XML.state) (a b : string) :
  XML.scan st a = Some st' -> XML.accepts st' b = true -> XML.accepts st (a ++ b) = true.
Proof. intros H. unfold XML.accepts. now rewrite (scan_app_some st st' a b H). Qed.

Lemma rejects_literal (st st' : XML.state) (a b : string) :
  XML.scan st a = Some st' -> XML.accepts st' b = false -> XML.accepts st (a ++ b) = false.
Proof. intros H. unfold XML.accepts. now rewrite (scan_app_some st st' a b H). Qed.

Lemma rejects_here (st : XML.state) (a b : string) :
  XML.scan st a = None -> XML.accepts st (a ++ b) = false.
Proof. intros H. unfold XML.accepts. now rewrite (scan_app_none st a b H). Qed.

Lemma accepts_value (name : string) (attrs opn : list string) (rd : bool) (v rest : string) :
  XML.value_text v = true ->
  let st := {| XML.mode_of := XML.AttrValue name attrs; XML.open := opn; XML.root_done := rd |} in
  XML.accepts st rest = true -> XML.accepts st (v ++ rest) = true.
Proof.
  intros Hv st. apply accepts_literal. now apply scan_value.
Qed.

Lemma accepts_text (top : string) (opn : list string) (rd : bool)
    (v : string) (c : ascii) (rest : string) :
  XML.character_data v = true ->
  Ascii.eqb c "]" || Ascii.eqb c ">" = false ->
  let st := {| XML.mode_of := XML.Content 0; XML.open := top :: opn; XML.root_done := rd |} in
  XML.accepts st (String c rest) = true -> XML.accepts st (v ++ String c rest) = true.
Proof.
  intros Hv Hc st Hrest.
  destruct (scan_text top opn rd v 0 Hv) as [closing' Hscan].
  unfold XML.accepts in *. rewrite (scan_app_some _ _ v _ Hscan).
  cbn [XML.scan] in Hrest |- *. now rewrite (step_after_text closing' top opn rd c Hc).
Qed.

(** The scanner run over a document given piece by piece: a piece known
    to be value text or character data is skipped, a literal piece is
    scanned. *)
Ltac scan_piece :=
  lazymatch goal with
  | |- XML.accepts ?st (?a ++ ?b) = true =>
      first
        [ match goal with
          | H : XML.value_text a = true |- _ =>
              refine (accepts_value _ _ _ _ a b H _)
          | H : XML.character_data a = true |- _ =>
              lazymatch b with
              | String ?c ?lit ++ ?r =>
                  refine (accepts_text _ _ _ a c (lit ++ r) H eq_refl _);
                  change (String c (lit ++ r)) with (String c lit ++ r)
              end
          end
        | let r := eval vm_compute in (XML.scan st a) in
          lazymatch r with
          | Some ?st' =>
              refine (accepts_literal st st' a b _ _); [vm_compute; reflexivity|]
          end ]
  end.

(** The same for a document that is refused. *)
Ltac scan_refused :=
  lazymatch goal with
  | |- XML.accepts ?st (?a ++ ?b) = false =>
      let r := eval vm_compute in (XML.scan st a) in
      lazymatch r with
      | Some ?st' =>
          refine (rejects_literal st st' a b _ _); [vm_compute; reflexivity|]
      | None => refine (rejects_here st a b _); vm_compute; reflexivity
      end
  end.

(** The icon is well formed as soon as the pieces put into the template
    are text that can stand where they are put. *)
Lemma getButtonSvg_well_formed (Number_toString : float -> string)
    (taskCount : float) (settings : QuerySettings) :
  let mainText := Number_toString taskCount ++ " Tasks" in
  XML.value_text (getColor taskCount settings) = true ->
  XML.character_data (Number_toString taskCount) = true ->
  XML.value_text (Number_toString (getFontSize mainText 140 40)) = true ->
  XML.value_text (Number_toString (getFontSize (item_name settings) 140 28)) = true ->
  XML.character_data (item_name settings) = true ->
  XML.well_formed (getButtonSvg Number_toString taskCount settings) = true.
Proof.
  intros mainText Hcolor Hcount Hmain Hlabel Hname.
  unfold getButtonSvg. fold mainText.
  unfold svg_text, svg_attr, XML.well_formed, mainText in *.
  repeat rewrite string_app_assoc.
  repeat scan_piece. reflexivity.
Qed.

(** C10, as the code has it: with an empty display label the font-size
    computation divides by zero and still succeeds: [0 * 0.45] is [0],
    [140 / 0] is [+Infinity], and the minimum with 28 is 28.
    [getButtonSvg] returns the document of the template, written out
    below, with the font size 28 and an empty text on the label line. The
    template escapes nothing: the document is well formed when the colour
    and the numbers, as the runtime writes them, are text that can stand
    in an attribute value, and the count text can stand in content. *)
Theorem empty_label_font_size (Number_toString : float -> string)
    (taskCount : float) (settings : QuerySettings) :
  item_name settings = "" ->
  let mainText := Number_toString taskCount ++ " Tasks" in
  let q := String "034" EmptyString in
  let nl := String "010" EmptyString in
  ((of_nat (String.length (item_name settings)) * 0.45 = 0)%float /\
   (140 / 0 = infinity)%float /\
   Math_min infinity 28 = 28%float /\
   getFontSize (item_name settings) 140 28 = 28%float) /\
  getButtonSvg Number_toString taskCount settings =
    "<svg width=" ++ q ++ "144" ++ q ++ " height=" ++ q ++ "144" ++ q
      ++ " xmlns=" ++ q ++ "http://www.w3.org/2000/svg" ++ q ++ ">" ++ nl
      ++ "    <rect width=" ++ q ++ "144" ++ q ++ " height=" ++ q ++ "144" ++ q
      ++ " fill=" ++ q ++ getColor taskCount settings ++ q ++ " />" ++ nl
      ++ "    <text x=" ++ q ++ "72" ++ q ++ " y=" ++ q ++ "72" ++ q
      ++ " dominant-baseline=" ++ q ++ "middle" ++ q
      ++ " text-anchor=" ++ q ++ "middle" ++ q ++ " fill=" ++ q ++ "#000" ++ q
      ++ " font-size=" ++ q
      ++ Number_toString (Math_min (140 / (of_nat (String.length mainText) * 0.45))%float 40)
      ++ "px" ++ q
      ++ " font-family=" ++ q ++ "Tahoma" ++ q ++ ">" ++ mainText ++ "</text>" ++ nl
      ++ "    <text x=" ++ q ++ "72" ++ q ++ " y=" ++ q ++ "135" ++ q
      ++ " dominant-baseline=" ++ q ++ "middle" ++ q
      ++ " text-anchor=" ++ q ++ "middle" ++ q ++ " fill=" ++ q ++ "#000" ++ q
      ++ " font-size=" ++ q ++ Number_toString 28%float ++ "px" ++ q
      ++ " font-family=" ++ q ++ "Tahoma" ++ q ++ "></text>" ++ nl
      ++ "    </svg>" /\
  (XML.value_text (getColor taskCount settings) = true ->
   XML.character_data (Number_toString taskCount) = true ->
   XML.value_text (Number_toString (getFontSize mainText 140 40)) = true ->
   XML.value_text (Number_toString 28%float) = true ->
   XML.well_formed (getButtonSvg Number_toString taskCount settings) = true).
Proof.
  intros Hname mainText q nl.
  assert (Hsize : getFontSize (item_name settings) 140 28 = 28%float)
    by (rewrite Hname; reflexivity).
  split; [|split].
  - rewrite Hname. repeat split.
  - unfold getButtonSvg. fold mainText. rewrite Hsize, Hname.
    unfold svg_text, svg_attr, getFontSize, dquote, newline, q, nl.
    repeat rewrite string_app_assoc. reflexivity.
  - intros Hcolor Hcount Hmain Hlabel.
    apply getButtonSvg_well_formed; try assumption.
    + now rewrite Hsize.
    + now rewrite Hname.
Qed.

Lemma empty_label_font_size_witness :
  let s := with_item_name "" sample_settings in
  item_name s = "" /\
  getFontSize (item_name s) 140 28 = 28%float /\
  XML.well_formed (getButtonSvg JSNumber.toString 5 s) = true.
Proof.
  intros s.
  destruct (empty_label_font_size JSNumber.toString 5 s eq_refl)
    as ((_ & _ & _ & Hsize) & _ & Hxml).
  split; [reflexivity|]. split; [exact Hsize|].
  apply Hxml; vm_compute; reflexivity.
Defined.

(** C10, as the claim has it, fails: the label is empty, the font size
    is 28, and the document is not well formed, whatever the runtime
    writes for the numbers. The colour of the settings is a double quote,
    which ends the value of [fill] at once; the quote of the template
    that follows is then where white space, [/] or [>] must stand. *)
Lemma empty_label_not_well_formed :
  item_name quote_colored = "" /\
  getFontSize (item_name quote_colored) 140 28 = 28%float /\
  getColor 12 quote_colored = String "034" EmptyString /\
  (forall Number_toString : float -> string,
     XML.well_formed (getButtonSvg Number_toString 12 quote_colored) = false).
Proof.
  split; [reflexivity|]. split; [reflexivity|]. split; [reflexivity|].
  intros Number_toString.
  unfold getButtonSvg, svg_text, svg_attr, XML.well_formed.
  change (getColor 12 quote_colored) with dquote. cbv zeta.
  repeat rewrite string_app_assoc.
  repeat scan_refused.
Qed.

(** The icon of a sample button, run with the instances of the runtime
    functions. *)
Example getButtonSvg_sample :
  getButtonSvg JSNumber.toString 12 (with_item_name "" sample_settings) =
    "<svg width=" ++ dquote ++ "144" ++ dquote ++ " height=" ++ dquote ++ "144" ++ dquote
      ++ " xmlns=" ++ dquote ++ "http://www.w3.org/2000/svg" ++ dquote ++ ">" ++ newline
      ++ "    <rect width=" ++ dquote ++ "144" ++ dquote ++ " height=" ++ dquote ++ "144"
      ++ dquote ++ " fill=" ++ dquote ++ "#00ff00" ++ dquote ++ " />" ++ newline
      ++ "    <text x=" ++ dquote ++ "72" ++ dquote ++ " y=" ++ dquote ++ "72" ++ dquote
      ++ " dominant-baseline=" ++ dquote ++ "middle" ++ dquote
      ++ " text-anchor=" ++ dquote ++ "middle" ++ dquote
      ++ " fill=" ++ dquote ++ "#000" ++ dquote
      ++ " font-size=" ++ dquote ++ "38.888888888888886px" ++ dquote
      ++ " font-family=" ++ dquote ++ "Tahoma" ++ dquote ++ ">12 Tasks</text>" ++ newline
      ++ "    <text x=" ++ dquote ++ "72" ++ dquote ++ " y=" ++ dquote ++ "135" ++ dquote
      ++ " dominant-baseline=" ++ dquote ++ "middle" ++ dquote
      ++ " text-anchor=" ++ dquote ++ "middle" ++ dquote
      ++ " fill=" ++ dquote ++ "#000" ++ dquote
      ++ " font-size=" ++ dquote ++ "28px" ++ dquote
      ++ " font-family=" ++ dquote ++ "Tahoma" ++ dquote ++ "></text>" ++ newline
      ++ "    </svg>".
Proof. vm_compute. reflexivity. Qed.

(** A button appears, the host answers the request for its settings, and
    the service returns twelve tasks: the button shows the icon of the
    count 12, and the trace is the one the source prescribes. *)
Example refresh_sample :
  let run := onWillAppear sample_event;;
             onDidReceiveSettings URI.encodeURIComponent Response_stringify
               JSNumber.toString sample_event in
  let url := "https://api.todoist.com/rest/v2/tasks?filter=today%20%7C%20overdue" in
  let icon := "data:image/svg+xml;charset=utf8,"
                ++ getButtonSvg JSNumber.toString 12 sample_settings in
  let result := run serving_env initial_world in
  fst result = Returned tt /\
  images (snd result) !! "button-1" = Some icon /\
  calls (snd result) =
      [ loop_setInterval 1 "button-1" 60000;
        host_getSettings "button-1";
        host_getGlobalSettings;
        logger_debug ("Fetching tasks from " ++ url);
        http_get url "Bearer secret";
        logger_debug ("Got response: " ++ Response_stringify twelve_found);
        host_setImage "button-1" icon ].
Proof. split; [|split]; vm_compute; reflexivity. Qed.

(** * More properties of the action *)

(** ** Disappearing *)

(** [onWillDisappear] of a registered instance clears its timer and
    forgets it: one [clearInterval] and no other call, no live timer left
    for the instance, every other instance and timer as before. *)
Theorem onWillDisappear_clears (env : Env) (w : World) (ev : ActionEvent) (h : Timeout) :
  consistent w ->
  intervals w !! action_id ev = Some h ->
  exists w',
    onWillDisappear ev env w = (Returned tt, w') /\
    calls w' = (calls w ++ [loop_clearInterval h])%list /\
    intervals w' !! action_id ev = None /\
    (forall h' ms, timers w' !! h' <> Some (action_id ev, ms)) /\
    (forall c, c <> action_id ev -> intervals w' !! c = intervals w !! c) /\
    (forall h', h' <> h -> timers w' !! h' = timers w !! h') /\
    images w' = images w /\
    next_timer w' = next_timer w /\
    consistent w'.
Proof.
  intros Hw Hreg. exists (disappeared (action_id ev) w).
  split; [apply onWillDisappear_run|].
  assert (Hw' := disappeared_consistent (action_id ev) w Hw).
  unfold disappeared in *. rewrite Hreg in *. cbn.
  split; [reflexivity|]. split; [apply lookup_delete_eq|].
  split.
  { intros h' ms H. apply (alive_registered _ Hw') in H. cbn in H.
    now rewrite lookup_delete_eq in H. }
  split; [intros c Hc; now apply lookup_delete_ne|].
  split; [intros h' Hh'; now apply lookup_delete_ne|].
  split; [reflexivity|]. split; [reflexivity | exact Hw'].
Qed.

Lemma onWillDisappear_clears_witness :
  let w := appeared sample_event initial_world in
  exists w',
    onWillDisappear sample_event refusing_env w = (Returned tt, w') /\
    intervals w' !! "button-1" = None /\
    timers w' !! 1%positive = None.
Proof.
  intros w.
  destruct (onWillDisappear_clears refusing_env w sample_event 1%positive)
    as (w' & Hrun & _ & Hgone & _ & _ & Htimers & _).
  - apply appeared_consistent, consistent_initial.
  - vm_compute. reflexivity.
  - exists w'. split; [exact Hrun|]. split; [exact Hgone|].
    rewrite onWillDisappear_run in Hrun. injection Hrun as <-.
    vm_compute. reflexivity.
Defined.

(** [onWillDisappear] is idempotent: a second run for the same instance
    finds nothing to clear and leaves the world, trace included, as the
    first run left it. *)
Theorem onWillDisappear_idempotent (env : Env) (w : World) (ev ev' : ActionEvent) :
  action_id ev' = action_id ev ->
  let w1 := snd (onWillDisappear ev env w) in
  onWillDisappear ev' env w1 = (Returned tt, w1).
Proof.
  intros Hid w1. subst w1. rewrite (onWillDisappear_run ev env w). cbn [snd].
  apply onWillDisappear_unregistered. rewrite Hid.
  unfold disappeared. destruct (intervals w !! action_id ev) as [h|] eqn:E.
  - cbn. apply lookup_delete_eq.
  - exact E.
Qed.

Lemma onWillDisappear_idempotent_witness :
  let w1 := snd (onWillDisappear sample_event refusing_env
                   (appeared sample_event initial_world)) in
  onWillDisappear sample_event refusing_env w1 = (Returned tt, w1).
Proof. apply onWillDisappear_idempotent. reflexivity. Defined.

(** Appearing and then disappearing is a round trip on the timers: from a
    consistent world where the instance has no timer, the map and the
    live timers are back to what they were; only the handle supply has
    moved on. *)
Theorem appear_disappear_round_trip (env : Env) (w : World) (ev ev' : ActionEvent) :
  consistent w ->
  intervals w !! action_id ev = None ->
  action_id ev' = action_id ev ->
  exists w',
    (onWillAppear ev;; onWillDisappear ev') env w = (Returned tt, w') /\
    intervals w' = intervals w /\
    timers w' = timers w /\
    next_timer w' = Pos.succ (next_timer w) /\
    images w' = images w /\
    List.filter is_setInterval (calls w')
      = (List.filter is_setInterval (calls w)
           ++ [loop_setInterval (next_timer w) (action_id ev) 60000])%list /\
    List.filter is_clearInterval (calls w')
      = (List.filter is_clearInterval (calls w) ++ [loop_clearInterval (next_timer w)])%list.
Proof.
  intros Hw Hnone Hid.
  assert (Hfresh : timers w !! next_timer w = None).
  { destruct (timers w !! next_timer w) eqn:T; [|reflexivity].
    pose proof (alive_below_next _ Hw (next_timer w) (ex_intro _ _ T)). lia. }
  exists (disappeared (action_id ev) (appeared ev w)).
  split.
  { unfold mbind, Eff_bind. rewrite onWillAppear_run, onWillDisappear_run.
    now rewrite Hid. }
  unfold disappeared, appeared, timer_started, refresh_requested. rewrite Hnone.
  destruct (truthy (item_filter (payload_settings ev))); cbn;
    rewrite lookup_insert_eq; cbn;
    rewrite !delete_insert_id by assumption;
    rewrite ?List.filter_app; cbn; rewrite ?app_nil_r;
    repeat split; reflexivity.
Qed.

Lemma appear_disappear_round_trip_witness :
  exists w',
    (onWillAppear sample_event;; onWillDisappear sample_event) refusing_env initial_world
      = (Returned tt, w') /\
    intervals w' = ∅ /\ timers w' = ∅.
Proof.
  destruct (appear_disappear_round_trip refusing_env initial_world sample_event sample_event
              consistent_initial eq_refl eq_refl)
    as (w' & Hrun & Hi & Ht & _).
  exists w'. split; [exact Hrun|]. split; assumption.
Defined.

(** ** Appearing *)

(** [onWillAppear] touches nothing but the timer of its own instance: the
    other instances keep their entry, every live timer stays alive, no
    image changes, and the only calls made are [setInterval] and
    [getSettings]. *)
Theorem onWillAppear_frame (env : Env) (w : World) (ev : ActionEvent) :
  consistent w ->
  exists w' new,
    onWillAppear ev env w = (Returned tt, w') /\
    calls w' = (calls w ++ new)%list /\
    forallb (fun c => is_setInterval c || is_getSettings c) new = true /\
    (forall c, c <> action_id ev -> intervals w' !! c = intervals w !! c) /\
    (forall h x, timers w !! h = Some x -> timers w' !! h = Some x) /\
    images w' = images w.
Proof.
  intros Hw.
  assert (Hfresh : timers w !! next_timer w = None).
  { destruct (timers w !! next_timer w) eqn:T; [|reflexivity].
    pose proof (alive_below_next _ Hw (next_timer w) (ex_intro _ _ T)). lia. }
  exists (appeared ev w).
  unfold appeared, refresh_requested, timer_started.
  destruct (intervals w !! action_id ev) as [h0|] eqn:E,
           (truthy (item_filter (payload_settings ev))) eqn:F.
  - exists [host_getSettings (action_id ev)].
    split; [rewrite onWillAppear_run; unfold appeared, timer_started, refresh_requested;
            now rewrite E, F|].
    cbn. repeat split; auto.
  - exists [].
    split; [rewrite onWillAppear_run; unfold appeared, timer_started, refresh_requested;
            now rewrite E, F|].
    cbn. rewrite app_nil_r. repeat split; auto.
  - exists [loop_setInterval (next_timer w) (action_id ev) 60000;
            host_getSettings (action_id ev)].
    split; [rewrite onWillAppear_run; unfold appeared, timer_started, refresh_requested;
            now rewrite E, F|].
    cbn. rewrite <- app_assoc. repeat split; auto.
    + intros c Hc. now apply lookup_insert_ne.
    + intros h x Hh. rewrite lookup_insert_ne; [exact Hh|]. congruence.
  - exists [loop_setInterval (next_timer w) (action_id ev) 60000].
    split; [rewrite onWillAppear_run; unfold appeared, timer_started, refresh_requested;
            now rewrite E, F|].
    cbn. repeat split; auto.
    + intros c Hc. now apply lookup_insert_ne.
    + intros h x Hh. rewrite lookup_insert_ne; [exact Hh|]. congruence.
Qed.

Lemma onWillAppear_frame_witness :
  let w := appeared sample_event initial_world in
  exists w',
    onWillAppear unfiltered_event refusing_env w = (Returned tt, w') /\
    intervals w' !! "button-1" = Some 1%positive /\
    timers w' !! 1%positive = Some ("button-1", 60000%Z).
Proof.
  intros w.
  destruct (onWillAppear_frame refusing_env w unfiltered_event)
    as (w' & new & Hrun & _ & _ & Hothers & Htimers & _).
  - apply appeared_consistent, consistent_initial.
  - exists w'. split; [exact Hrun|]. split.
    + rewrite Hothers by discriminate. vm_compute. reflexivity.
    + apply Htimers. vm_compute. reflexivity.
Defined.

(** ** The timer *)

Lemma timer_fires_run (env : Env) (w : World) (h : Timeout) :
  timer_fires h env w =
    (Returned tt,
     match timers w !! h with
     | Some (context, _) => with_calls [logger_debug "Timer fired"; host_getSettings context] w
     | None => w
     end).
Proof.
  unfold timer_fires, timer_callback, logger_debug_, Action_getSettings, record.
  unfold mbind, Eff_bind, get, put, mret, Eff_ret. cbn.
  destruct (timers w !! h) as [[context ms]|]; [|reflexivity].
  cbn. unfold with_calls. now rewrite <- app_assoc.
Qed.

(** The life of a timer. After [onWillAppear] the instance has a handle
    whose firing logs and asks for the settings of that instance, once,
    and changes nothing else; after [onWillDisappear] a firing of the
    same handle does nothing at all. *)
Theorem timer_lifecycle (env : Env) (w : World) (ev : ActionEvent) :
  consistent w ->
  let w1 := snd (onWillAppear ev env w) in
  let w2 := snd (onWillDisappear ev env w1) in
  exists h,
    intervals w1 !! action_id ev = Some h /\
    timer_fires h env w1
      = (Returned tt,
         with_calls [logger_debug "Timer fired"; host_getSettings (action_id ev)] w1) /\
    timer_fires h env w2 = (Returned tt, w2).
Proof.
  intros Hw w1 w2.
  assert (Hw1 : w1 = appeared ev w) by (unfold w1; now rewrite onWillAppear_run).
  assert (Hc1 : consistent w1) by (rewrite Hw1; now apply appeared_consistent).
  assert (Hsome : is_Some (intervals w1 !! action_id ev)).
  { rewrite Hw1. pose proof (appeared_registrations ev w) as R.
    unfold registrations in R. injection R as -> _ _. apply timer_started_registered. }
  destruct Hsome as [h Hreg].
  pose proof (registered_alive _ Hc1 _ _ Hreg) as Hlive.
  exists h. split; [exact Hreg|]. split.
  - rewrite timer_fires_run, Hlive. reflexivity.
  - rewrite timer_fires_run. unfold w2. rewrite (onWillDisappear_run ev env w1).
    cbn [snd]. unfold disappeared. rewrite Hreg. cbn.
    now rewrite lookup_delete_eq.
Qed.

Lemma timer_lifecycle_witness :
  let w1 := snd (onWillAppear sample_event refusing_env initial_world) in
  exists h, intervals w1 !! "button-1" = Some h /\
    List.filter is_getSettings (calls (snd (timer_fires h refusing_env w1)))
      = [host_getSettings "button-1"; host_getSettings "button-1"].
Proof.
  intros w1.
  destruct (timer_lifecycle refusing_env initial_world sample_event consistent_initial)
    as (h & Hreg & Hfire & _).
  exists h. split; [exact Hreg|].
  fold w1 in Hfire. rewrite Hfire. vm_compute. reflexivity.
Defined.

(** ** The refresh pipeline, case by case *)

Section Refresh.

Variable encodeURIComponent : string -> string.
Variable JSON_stringify : Response -> string.
Variable Number_toString : float -> string.

Local Abbreviation refresh :=
  (updateButton encodeURIComponent JSON_stringify Number_toString).

(** Every run of [updateButton]: what it returns and the world it leaves,
    by what the service does. *)
Lemma updateButton_cases (env : Env) (w : World) (settings : QuerySettings) (action : string) :
  let url := tasks_url encodeURIComponent (item_filter settings) in
  let authorization := "Bearer " ++ apiToken (globalSettings env) in
  let sent := [host_getGlobalSettings; logger_debug ("Fetching tasks from " ++ url);
               http_get url authorization] in
  refresh settings action env w =
    match remote env url authorization with
    | inl e => (Thrown e, with_calls sent w)
    | inr response =>
        if ok response then
          match json response with
          | inr tasks =>
              let icon := icon_of Number_toString tasks settings in
              (Returned tt,
               {| intervals := intervals w; timers := timers w; next_timer := next_timer w;
                  images := <[action := icon]> (images w);
                  calls := calls w
                    ++ sent ++ [logger_debug ("Got response: " ++ JSON_stringify response);
                                host_setImage action icon] |})
          | inl e =>
              (Thrown e,
               with_calls
                 (sent ++ [logger_debug ("Got response: " ++ JSON_stringify response)]) w)
          end
        else
          (Thrown (RemoteQueryError (statusText response)),
           with_calls
             (sent ++ [logger_error ("Error fetching tasks: " ++ statusText response)]) w)
    end.
Proof.
  intros url authorization sent.
  unfold updateButton, getTasks, getGlobalSettings, fetch, Response_json,
    Action_setImage, logger_debug_, logger_error_, record.
  unfold mbind, Eff_bind, get, put, ask, throw, mret, Eff_ret. cbn.
  fold (tasks_url encodeURIComponent (item_filter settings)). fold url. fold authorization.
  unfold with_calls, sent, icon_of.
  destruct (remote env url authorization) as [e|response]; cbn.
  - now rewrite <- !app_assoc.
  - destruct (ok response); cbn.
    + destruct (json response) as [e|tasks]; cbn; now rewrite <- !app_assoc.
    + now rewrite <- !app_assoc.
Qed.

(** A refresh never touches the timers. *)
Lemma updateButton_registrations (env : Env) (w : World)
    (settings : QuerySettings) (action : string) :
  registrations (snd (refresh settings action env w)) = registrations w.
Proof.
  rewrite (updateButton_cases env w settings action). cbn zeta.
  destruct (remote env _ _) as [e|response]; [reflexivity|].
  destruct (ok response); [|reflexivity].
  now destruct (json response).
Qed.

(** A successful refresh: the instance, and no other, displays the icon
    of the number of tasks received; [setImage] is the last call made and
    nothing is logged as an error. *)
Theorem updateButton_displays_count (env : Env) (w : World)
    (settings : QuerySettings) (action : string) (response : Response) (tasks : list Task) :
  remote env (tasks_url encodeURIComponent (item_filter settings))
    ("Bearer " ++ apiToken (globalSettings env)) = inr response ->
  ok response = true ->
  json response = inr tasks ->
  exists w' before,
    refresh settings action env w = (Returned tt, w') /\
    images w' !! action = Some (icon_of Number_toString tasks settings) /\
    (forall other, other <> action -> images w' !! other = images w !! other) /\
    calls w' = (calls w ++ before
                  ++ [host_setImage action (icon_of Number_toString tasks settings)])%list /\
    forallb (fun c => negb (is_setImage c || is_logger_error c)) before = true.
Proof.
  intros Hremote Hok Hjson.
  pose proof (updateButton_cases env w settings action) as Hrun. cbn zeta in Hrun.
  rewrite Hremote, Hok, Hjson in Hrun.
  eexists _, [_; _; _; _]. split; [exact Hrun|]. cbn.
  split; [apply lookup_insert_eq|].
  split; [intros other Hne; now apply lookup_insert_ne|].
  split; reflexivity.
Qed.

(** When the service cannot be reached, [fetch] rejects and so does the
    refresh, with the error of the transport: nothing is drawn and, unlike
    for a refused request, nothing is logged as an error. *)
Theorem updateButton_transport_failure (env : Env) (w : World)
    (settings : QuerySettings) (action : string) (e : Exn) :
  remote env (tasks_url encodeURIComponent (item_filter settings))
    ("Bearer " ++ apiToken (globalSettings env)) = inl e ->
  exists w',
    refresh settings action env w = (Thrown e, w') /\
    images w' = images w /\
    List.filter is_setImage (calls w') = List.filter is_setImage (calls w) /\
    List.filter is_logger_error (calls w') = List.filter is_logger_error (calls w).
Proof.
  intros Hremote.
  pose proof (updateButton_cases env w settings action) as Hrun. cbn zeta in Hrun.
  rewrite Hremote in Hrun.
  eexists. split; [exact Hrun|]. cbn.
  rewrite !List.filter_app. cbn. rewrite !app_nil_r. repeat split.
Qed.

(** When the service answers with success but its body is no JSON,
    [response.json()] rejects and so does the refresh, with that error:
    the response is logged as received and nothing is drawn. *)
Theorem updateButton_garbled_body (env : Env) (w : World)
    (settings : QuerySettings) (action : string) (response : Response) (e : Exn) :
  remote env (tasks_url encodeURIComponent (item_filter settings))
    ("Bearer " ++ apiToken (globalSettings env)) = inr response ->
  ok response = true ->
  json response = inl e ->
  exists w',
    refresh settings action env w = (Thrown e, w') /\
    images w' = images w /\
    List.filter is_setImage (calls w') = List.filter is_setImage (calls w) /\
    last (calls w') = Some (logger_debug ("Got response: " ++ JSON_stringify response)).
Proof.
  intros Hremote Hok Hjson.
  pose proof (updateButton_cases env w settings action) as Hrun. cbn zeta in Hrun.
  rewrite Hremote, Hok, Hjson in Hrun.
  eexists. split; [exact Hrun|]. cbn.
  split; [reflexivity|]. split.
  - rewrite !List.filter_app. cbn. now rewrite !app_nil_r.
  - change (calls w ++ _)%list with
      (calls w ++ [host_getGlobalSettings;
                   logger_debug ("Fetching tasks from "
                                   ++ tasks_url encodeURIComponent (item_filter settings));
                   http_get (tasks_url encodeURIComponent (item_filter settings))
                     ("Bearer " ++ apiToken (globalSettings env))]
               ++ [logger_debug ("Got response: " ++ JSON_stringify response)])%list.
    rewrite !app_assoc. apply last_snoc.
Qed.

(** Whatever the service does, a refresh sends exactly one request,
    leaves the timers alone, changes no image but the one of its
    instance, and calls [setImage] once if it returns and never if it
    throws. *)
Theorem updateButton_single_attempt (env : Env) (w : World)
    (settings : QuerySettings) (action : string) :
  let result := refresh settings action env w in
  let w' := snd result in
  let url := tasks_url encodeURIComponent (item_filter settings) in
  List.filter is_http_get (calls w')
    = (List.filter is_http_get (calls w)
         ++ [http_get url ("Bearer " ++ apiToken (globalSettings env))])%list /\
  registrations w' = registrations w /\
  (forall other, other <> action -> images w' !! other = images w !! other) /\
  length (List.filter is_setImage (calls w'))
    = (length (List.filter is_setImage (calls w))
       + match fst result with Returned _ => 1 | Thrown _ => 0 end)%nat.
Proof.
  intros result w' url. subst result w'.
  rewrite (updateButton_cases env w settings action). cbn zeta. fold url.
  destruct (remote env url _) as [e|response]; cbn.
  - rewrite !List.filter_app. cbn. rewrite app_nil_r. repeat split. lia.
  - destruct (ok response); cbn.
    + destruct (json response) as [e|tasks]; cbn.
      * rewrite !List.filter_app. cbn. rewrite app_nil_r. repeat split. lia.
      * rewrite !List.filter_app. cbn. rewrite length_app. cbn. repeat split.
        intros other Hne. now apply lookup_insert_ne.
    + rewrite !List.filter_app. cbn. rewrite app_nil_r. repeat split. lia.
Qed.

End Refresh.

Lemma updateButton_displays_count_witness :
  exists w',
    updateButton URI.encodeURIComponent Response_stringify JSNumber.toString
      sample_settings "button-1" serving_env initial_world = (Returned tt, w') /\
    images w' !! "button-1" = Some (icon_of JSNumber.toString twelve_tasks sample_settings).
Proof.
  destruct (updateButton_displays_count URI.encodeURIComponent Response_stringify
              JSNumber.toString serving_env initial_world sample_settings "button-1"
              twelve_found twelve_tasks eq_refl eq_refl eq_refl)
    as (w' & before & Hrun & Himage & _).
  exists w'. split; assumption.
Defined.

Lemma updateButton_transport_failure_witness :
  exists w',
    updateButton URI.encodeURIComponent Response_stringify JSNumber.toString
      sample_settings "button-1" unreachable_env initial_world
      = (Thrown {| exn_name := "FetchError"; exn_message := "getaddrinfo ENOTFOUND" |}, w') /\
    List.filter is_logger_error (calls w') = [].
Proof.
  destruct (updateButton_transport_failure URI.encodeURIComponent Response_stringify
              JSNumber.toString unreachable_env initial_world sample_settings "button-1"
              _ eq_refl)
    as (w' & Hrun & _ & _ & Hlog).
  exists w'. split; assumption.
Defined.

Lemma updateButton_garbled_body_witness :
  exists w',
    updateButton URI.encodeURIComponent Response_stringify JSNumber.toString
      sample_settings "button-1" garbling_env initial_world
      = (Thrown {| exn_name := "SyntaxError"; exn_message := "Unexpected token" |}, w') /\
    images w' = ∅.
Proof.
  destruct (updateButton_garbled_body URI.encodeURIComponent Response_stringify
              JSNumber.toString garbling_env initial_world sample_settings "button-1"
              garbled _ eq_refl eq_refl eq_refl)
    as (w' & Hrun & Himages & _).
  exists w'. split; assumption.
Defined.

(** ** Any sequence of events *)

Lemma onKeyDown_run (ev : ActionEvent) (env : Env) (w : World) :
  onKeyDown ev env w = (Returned tt, refresh_requested (action_id ev) w).
Proof. reflexivity. Qed.

Lemma dispatch_consistent (enc : string -> string) (str : Response -> string)
    (toS : float -> string) (e : HostEvent) (env : Env) (w : World) :
  consistent w -> consistent (snd (dispatch enc str toS e env w)).
Proof.
  intros Hw. destruct e as [ev|ev|ev|ev|h]; cbn [dispatch].
  - rewrite onWillAppear_run. now apply appeared_consistent.
  - rewrite onWillDisappear_run. now apply disappeared_consistent.
  - unfold onDidReceiveSettings.
    apply (consistent_registrations w); [|exact Hw].
    apply updateButton_registrations.
  - rewrite onKeyDown_run. apply (consistent_registrations w); [reflexivity | exact Hw].
  - rewrite timer_fires_run. cbn [snd].
    destruct (timers w !! h) as [[c ms]|]; [|exact Hw].
    apply (consistent_registrations w); [reflexivity | exact Hw].
Qed.

Lemma run_events_consistent (enc : string -> string) (str : Response -> string)
    (toS : float -> string) (events : list HostEvent) (env : Env) (w : World) :
  consistent w -> consistent (run_events enc str toS events env w).
Proof.
  revert w. induction events as [|e events IH]; intros w Hw; [exact Hw|].
  cbn [run_events]. apply IH. now apply dispatch_consistent.
Qed.

(** A map of instances to handles and a map of handles to instances that
    mirror each other have the same size. *)
Lemma mirrored_size (m : gmap string Timeout) :
  forall t : gmap Timeout (string * Z),
    (forall c h, m !! c = Some h -> exists ms, t !! h = Some (c, ms)) ->
    (forall h c ms, t !! h = Some (c, ms) -> m !! c = Some h) ->
    size t = size m.
Proof.
  induction m as [|c h m Hfresh _ IH] using map_first_key_ind; intros t Hmt Htm.
  - rewrite map_size_empty. apply map_size_empty_iff, map_empty. intros k.
    destruct (t !! k) as [[c ms]|] eqn:T; [|reflexivity].
    apply Htm in T. now rewrite lookup_empty in T.
  - destruct (Hmt c h (lookup_insert_eq _ _ _)) as [ms0 Hh].
    rewrite map_size_insert_None by assumption.
    rewrite <- (IH (delete h t)).
    + rewrite map_size_delete, Hh. cbn.
      assert (size t <> 0).
      { intros Hz. apply map_size_empty_inv in Hz. rewrite Hz in Hh.
        now rewrite lookup_empty in Hh. }
      lia.
    + intros c' h' Hc'.
      assert (Hne : c' <> c) by (intros ->; congruence).
      destruct (Hmt c' h') as [ms Hms]; [now rewrite lookup_insert_ne|].
      exists ms. rewrite lookup_delete_ne; [exact Hms|].
      intros <-. rewrite Hh in Hms. congruence.
    + intros h' c' ms Hh'. apply lookup_delete_Some in Hh' as [Hne Hh'].
      pose proof (Htm _ _ _ Hh') as Hback.
      destruct (decide (c' = c)) as [->|Hc].
      * rewrite lookup_insert_eq in Hback. congruence.
      * now rewrite lookup_insert_ne in Hback.
Qed.

(** No timer leaks. Whatever events the host delivers, in whatever
    order, and whatever the service answers: there are as many live
    timers as instances in the map, an instance is in the map exactly
    when a timer is alive for it, that timer is unique and it has the
    period 60000. *)
Theorem no_timer_leak (enc : string -> string) (str : Response -> string)
    (toS : float -> string) (events : list HostEvent) (env : Env) (w : World) :
  consistent w ->
  let w' := run_events enc str toS events env w in
  size (timers w') = size (intervals w') /\
  (forall context,
     is_Some (intervals w' !! context)
     <-> exists h ms, timers w' !! h = Some (context, ms)) /\
  (forall context h h' ms ms',
     timers w' !! h = Some (context, ms) ->
     timers w' !! h' = Some (context, ms') -> h = h' /\ ms = 60000%Z /\ ms' = 60000%Z).
Proof.
  intros Hw w'.
  pose proof (run_events_consistent enc str toS events env w Hw) as [I1 I2 I3].
  fold w' in I1, I2, I3. split; [|split].
  - apply mirrored_size; [|exact I2]. intros c h Hc. eauto.
  - intros context. split.
    + intros [h Hh]. eauto.
    + intros (h & ms & Hh). eauto.
  - intros context h h' ms ms' Hh Hh'.
    pose proof (I2 _ _ _ Hh) as Hb. pose proof (I2 _ _ _ Hh') as Hb'.
    rewrite Hb in Hb'. injection Hb' as <-.
    apply I1 in Hb. rewrite Hb in Hh, Hh'.
    injection Hh as <-. injection Hh' as <-. auto.
Qed.

Lemma no_timer_leak_witness :
  let w' := run_events URI.encodeURIComponent Response_stringify JSNumber.toString
              [WillAppear sample_event; WillAppear unfiltered_event;
               DidReceiveSettings sample_event; TimerFires 1%positive;
               WillAppear sample_event; WillDisappear unfiltered_event;
               KeyDown sample_event; WillDisappear unfiltered_event]
              refusing_env initial_world in
  size (timers w') = size (intervals w') /\ size (intervals w') = 1.
Proof.
  intros w'. split.
  - apply (no_timer_leak URI.encodeURIComponent Response_stringify JSNumber.toString
             _ refusing_env initial_world consistent_initial).
  - vm_compute. reflexivity.
Defined.

(** ** More on the colour policy *)

Lemma or_else_truthy (c : option string) (d : string) :
  truthy d = true -> truthy (c |? d) = true.
Proof.
  intros Hd. unfold or_else. destruct c as [a|]; [|exact Hd].
  destruct (truthy a) eqn:Ha; assumption.
Qed.

(** The colour is never the empty string, whatever the settings hold: an
    empty or missing colour falls back to a default name, so the [fill]
    of the icon always names something. *)
Theorem getColor_never_empty (count : float) (s : QuerySettings) :
  exists c rest, getColor count s = String c rest.
Proof.
  assert (H : getColor count s <> "").
  { apply truthy_string. unfold getColor.
    repeat match goal with
           | |- context [if ?b then _ else _] => destruct b
           end;
      try apply or_else_truthy; reflexivity. }
  destruct (getColor count s) as [|c rest]; [contradiction | eauto].
Qed.

(** The colour is always one the settings offer or one of the five
    names the code knows. *)
Theorem getColor_range (count : float) (s : QuerySettings) :
  In (getColor count s) ["green"; "yellow"; "orange"; "red"; "white"] \/
  In (Some (getColor count s))
     [g_color_1 s; g_color_2 s; g_color_3 s; g_color_4 s;
      b_color_1 s; b_color_2 s; b_color_3 s; b_color_4 s].
Proof.
  assert (Hor : forall (c : option string) d, c |? d = d \/ c = Some (c |? d)).
  { intros [a|] d; unfold or_else; [|now left].
    destruct (truthy a); [now right | now left]. }
  unfold getColor.
  repeat match goal with
         | |- context [if ?b then _ else _] => destruct b
         end;
    try (left; cbn; tauto);
    match goal with
    | |- context [?c |? ?d] => destruct (Hor c d) as [-> | Hc]
    end;
    try (left; cbn; tauto); right; cbn; rewrite <- Hc; tauto.
Qed.

(** Any cutoff that fails the test, not only 0, counts as unset: a [NaN]
    or a negative zero in a cutoff field gives the colours that [null]
    gives. *)
Theorem getColor_falsy_cutoff_unset (f : Cutoff) (x : float) (count : float)
    (s : QuerySettings) :
  truthy x = false ->
  getColor count (with_cutoff f (Some x) s) = getColor count (with_cutoff f None s).
Proof.
  intros Hx.
  assert (Hs : truthy (Some x) = false) by exact Hx.
  destruct f; unfold getColor; cbn [with_cutoff g_cutoff_1 g_cutoff_2 g_cutoff_3
    b_cutoff_1 b_cutoff_2 b_cutoff_3 g_color_1 g_color_2 g_color_3 g_color_4
    b_color_1 b_color_2 b_color_3 b_color_4]; rewrite Hs; reflexivity.
Qed.

Lemma getColor_falsy_cutoff_unset_witness :
  getColor 7 (with_cutoff G2 (Some nan) sample_settings) = "orange" /\
  getColor 7 (with_cutoff G1 (Some (-0)%float) sample_settings) = "#ffa500".
Proof.
  split.
  - rewrite (getColor_falsy_cutoff_unset G2 nan 7 sample_settings eq_refl). reflexivity.
  - rewrite (getColor_falsy_cutoff_unset G1 (-0)%float 7 sample_settings eq_refl).
    reflexivity.
Defined.

(** The order of doubles is transitive. *)
Lemma SFleb_trans (a b c : spec_float) :
  SFleb a b = true -> SFleb b c = true -> SFleb a c = true.
Proof.
  unfold SFleb.
  destruct a as [sa|sa| |sa ma ea], b as [sb|sb| |sb mb eb], c as [sc|sc| |sc mc ec];
    cbn; try discriminate; try reflexivity;
    try (destruct sa; try discriminate; try reflexivity);
    try (destruct sb; try discriminate; try reflexivity);
    try (destruct sc; try discriminate; try reflexivity);
    try (intros; discriminate); try (intros; reflexivity).
  all: rewrite ?Pos.compare_cont_spec; cbn [Pos.switch_Eq].
  all: destruct (Z.compare_spec ea eb), (Z.compare_spec eb ec), (Z.compare_spec ea ec);
    try lia; try discriminate; try reflexivity;
    destruct (Pos.compare_spec ma mb), (Pos.compare_spec mb mc), (Pos.compare_spec ma mc);
    cbn; try lia; try discriminate; try reflexivity; intros; try discriminate; try lia.
Qed.

Lemma ge_trans (count upper lower : float) :
  PrimFloat.leb upper lower = true ->
  (count >=? Some lower) = true -> (count >=? Some upper) = true.
Proof.
  unfold ge, ToNumber. rewrite !FloatAxioms.leb_spec. apply SFleb_trans.
Qed.

(** A rung whose cutoff is not below the cutoff of a rung tested before
    it is dead: every count that reaches it reaches the earlier rung
    first, so the colours are those of the settings without it. The
    ladders only work with cutoffs in descending order. *)
Theorem getColor_dead_rung (upper lower : Cutoff) (cu cl : float)
    (count : float) (s : QuerySettings) :
  tested_before upper lower = true ->
  cutoff_of upper s = Some cu ->
  cutoff_of lower s = Some cl ->
  truthy cu = true ->
  PrimFloat.leb cu cl = true ->
  getColor count s = getColor count (with_cutoff lower None s).
Proof.
  intros Hpair Hu Hl Hset Hle.
  assert (Hsu : truthy (Some cu) = true) by exact Hset.
  pose proof (ge_trans count cu cl Hle) as Htrans.
  destruct upper, lower; try discriminate Hpair; cbn [cutoff_of] in Hu, Hl;
    unfold getColor;
    cbn [with_cutoff g_cutoff_1 g_cutoff_2 g_cutoff_3 b_cutoff_1 b_cutoff_2 b_cutoff_3
         g_color_1 g_color_2 g_color_3 g_color_4 b_color_1 b_color_2 b_color_3 b_color_4];
    rewrite ?Hu, ?Hl, ?Hsu;
    change (truthy (@None float)) with false; cbn [andb];
    destruct (count >=? Some cl) eqn:Hcl;
    rewrite ?(Htrans eq_refl), ?andb_false_r; cbn [andb];
    repeat match goal with
           | |- context [if ?b then _ else _] => destruct b
           end; reflexivity.
Qed.

Lemma getColor_dead_rung_witness :
  let s := with_cutoff G2 (Some 20%float) sample_settings in
  getColor 25 s = "#00ff00" /\ getColor 12 s = "#00ff00" /\
  getColor 7 s = getColor 7 (with_cutoff G2 None s).
Proof.
  intros s. split; [reflexivity|]. split; [reflexivity|].
  apply (getColor_dead_rung G1 G2 10 20 7 s); reflexivity.
Defined.

(** ** More on the icon *)

Lemma string_length_app (a b : string) :
  String.length (a ++ b) = (String.length a + String.length b)%nat.
Proof.
  induction a as [|c a IH]; [reflexivity|].
  change (S (String.length (a ++ b)) = S (String.length a + String.length b)).
  now f_equal.
Qed.

(** Short texts are drawn at full size. A line of at most 7 code units is
    drawn at 40, so the count line is until the count needs two digits,
    and at 8 code units the size drops; a label of at most 11 code units
    is drawn at 28, and at 12 the size drops. *)
Theorem getFontSize_full_size (Number_toString : float -> string)
    (text : string) (taskCount : float) :
  ((String.length text <= 7)%nat -> getFontSize text 140 40 = 40%float) /\
  ((String.length text <= 11)%nat -> getFontSize text 140 28 = 28%float) /\
  ((String.length (Number_toString taskCount) <= 1)%nat ->
     getFontSize (Number_toString taskCount ++ " Tasks") 140 40 = 40%float) /\
  (String.length text = 8%nat ->
     getFontSize text 140 40 = 38.888888888888886%float) /\
  (String.length text = 12%nat ->
     getFontSize text 140 28 = 25.925925925925924%float).
Proof.
  assert (H40 : forall n, (n <= 7)%nat ->
                  Math_min (140 / (of_nat n * 0.45))%float 40 = 40%float).
  { intros n Hn. do 8 (destruct n as [|n]; [reflexivity|]). lia. }
  assert (H28 : forall n, (n <= 11)%nat ->
                  Math_min (140 / (of_nat n * 0.45))%float 28 = 28%float).
  { intros n Hn. do 12 (destruct n as [|n]; [reflexivity|]). lia. }
  unfold getFontSize. repeat split.
  - apply H40.
  - apply H28.
  - intros H1. apply H40. rewrite string_length_app. cbn. lia.
  - intros ->. reflexivity.
  - intros ->. reflexivity.
Qed.

Lemma getFontSize_full_size_witness :
  getFontSize "9 Tasks" 140 40 = 40%float /\
  getFontSize "Inbox" 140 28 = 28%float /\
  getFontSize (JSNumber.toString 9 ++ " Tasks") 140 40 = 40%float /\
  getFontSize "10 Tasks" 140 40 = 38.888888888888886%float /\
  getFontSize "Shopping run" 140 28 = 25.925925925925924%float.
Proof.
  pose proof (fun text => getFontSize_full_size JSNumber.toString text 9) as H.
  split; [apply (proj1 (H "9 Tasks")); vm_compute; lia|].
  split; [apply (proj1 (proj2 (H "Inbox"))); vm_compute; lia|].
  split; [apply (proj1 (proj2 (proj2 (H "")))); vm_compute; lia|].
  split; [apply (proj1 (proj2 (proj2 (proj2 (H "10 Tasks"))))); reflexivity|].
  apply (proj2 (proj2 (proj2 (proj2 (H "Shopping run"))))). reflexivity.
Defined.

Lemma plain_or_else (c : option string) (d : string) :
  plain_color c = true -> XML.value_text d = true -> XML.value_text (c |? d) = true.
Proof.
  intros Hc Hd. unfold or_else. destruct c as [a|]; [|exact Hd].
  destruct (truthy a); assumption.
Qed.

(** A colour picked from colour fields that hold value text is value
    text. *)
Lemma getColor_plain (count : float) (s : QuerySettings) :
  forallb plain_color (colors s) = true -> XML.value_text (getColor count s) = true.
Proof.
  unfold colors. cbn [forallb]. rewrite !andb_true_iff.
  intros (G1' & G2' & G3' & G4' & B1' & B2' & B3' & B4' & _).
  unfold getColor.
  repeat match goal with
         | |- context [if ?b then _ else _] => destruct b
         end;
    try (apply plain_or_else; [assumption | reflexivity]); reflexivity.
Qed.

(** Inert text can stand in an attribute value and in content. *)
Lemma inert_value_text (s : string) : XML.inert s = true -> XML.value_text s = true.
Proof.
  unfold XML.inert, XML.value_text.
  induction (list_ascii_of_string s) as [|c l IH]; [reflexivity|].
  cbn [forallb]. rewrite !andb_true_iff. intros [Hc Hl]. split; [|now apply IH].
  unfold XML.inert_char in Hc. now apply andb_true_iff in Hc as [Hc _].
Qed.

Lemma inert_character_data (s : string) :
  XML.inert s = true -> XML.character_data s = true.
Proof.
  unfold XML.inert, XML.character_data. generalize 0%nat.
  induction s as [|c s IH]; intros closing Hs; [reflexivity|].
  cbn [list_ascii_of_string forallb] in Hs. apply andb_true_iff in Hs as [Hc Hs].
  unfold XML.inert_char, XML.value_char in Hc.
  apply andb_true_iff in Hc as [Hc Hgt]. apply andb_true_iff in Hc as [Hvalid Hc].
  cbn [XML.chardata_from].
  destruct (Ascii.eqb c "<"), (Ascii.eqb c "&"); try discriminate. cbn [orb].
  destruct (Ascii.eqb c "]"); [now apply IH|].
  destruct (Ascii.eqb c ">"); [discriminate|].
  rewrite Hvalid. now apply IH.
Qed.

(** The icon is well-formed XML for every count when the label is
    character data (no [<], no [&], no []]>], no forbidden control
    character), the colour fields hold no [<], no [&], no double quote
    and no such control character, and the runtime writes numbers with
    none of [<], [>], [&], the double quote and those control
    characters. *)
Theorem getButtonSvg_markup (Number_toString : float -> string)
    (taskCount : float) (settings : QuerySettings) :
  (forall x, XML.inert (Number_toString x) = true) ->
  XML.character_data (item_name settings) = true ->
  forallb plain_color (colors settings) = true ->
  XML.well_formed (getButtonSvg Number_toString taskCount settings) = true.
Proof.
  intros Hnum Hname Hcolors.
  apply getButtonSvg_well_formed;
    auto using getColor_plain, inert_value_text, inert_character_data.
Qed.

(** The instance [JSNumber.toString] writes inert text only: digits, a
    point, a sign, an exponent mark, or one of three names. *)
Lemma inert_app (a b : string) :
  XML.inert (a ++ b) = XML.inert a && XML.inert b.
Proof.
  unfold XML.inert. induction a as [|c a IH]; [reflexivity|].
  change (XML.inert_char c && forallb XML.inert_char (list_ascii_of_string (a ++ b))
          = XML.inert_char c && forallb XML.inert_char (list_ascii_of_string a)
            && forallb XML.inert_char (list_ascii_of_string b)).
  now rewrite IH, andb_assoc.
Qed.

Lemma inert_substring (s : string) :
  XML.inert s = true -> forall n m, XML.inert (substring n m s) = true.
Proof.
  unfold XML.inert. induction s as [|c s IH]; intros Hs n m.
  - now destruct n, m.
  - cbn [list_ascii_of_string forallb] in Hs. apply andb_true_iff in Hs as [Hc Hs].
    destruct n as [|n]; cbn [substring].
    + destruct m as [|m]; [reflexivity|].
      cbn [list_ascii_of_string forallb]. rewrite Hc. exact (IH Hs 0%nat m).
    + exact (IH Hs n m).
Qed.

Lemma inert_uint (d : Decimal.uint) : XML.inert (NilEmpty.string_of_uint d) = true.
Proof.
  unfold XML.inert.
  induction d; cbn [NilEmpty.string_of_uint list_ascii_of_string forallb];
    try reflexivity; rewrite IHd; reflexivity.
Qed.

Lemma inert_digits (z : Z) : XML.inert (JSNumber.digits z) = true.
Proof.
  unfold JSNumber.digits, NilZero.string_of_uint.
  destruct (N.to_uint (Z.to_N z)); try reflexivity; apply inert_uint.
Qed.

Lemma inert_zeros (n : Z) : XML.inert (JSNumber.zeros n) = true.
Proof.
  unfold JSNumber.zeros, XML.inert.
  induction (Z.to_nat n) as [|k IH]; [reflexivity|].
  cbn [repeat string_of_list_ascii list_ascii_of_string forallb]. now rewrite IH.
Qed.

Lemma inert_positive_toString (m e : Z) :
  XML.inert (JSNumber.positive_toString m e) = true.
Proof.
  unfold JSNumber.positive_toString.
  destruct (JSNumber.shortest _ _ _ _ _) as [s0 k].
  destruct (if (s0 =? 10 ^ k)%Z then _ else _) as [s n].
  pose proof (inert_digits s) as Hd.
  pose proof (fun a b => inert_substring _ Hd a b) as Hsub.
  unfold JSNumber.drop.
  repeat match goal with
         | |- context [if ?b then _ else _] => destruct b
         end;
    rewrite ?inert_app, ?Hd, ?Hsub, ?inert_zeros, ?inert_digits; reflexivity.
Qed.

Lemma inert_JSNumber (x : float) : XML.inert (JSNumber.toString x) = true.
Proof.
  unfold JSNumber.toString.
  destruct (Prim2SF x) as [s|s| |s m e]; try reflexivity.
  - now destruct s.
  - destruct s; [rewrite inert_app|]; now rewrite inert_positive_toString.
Qed.

Lemma getButtonSvg_markup_witness :
  XML.well_formed (getButtonSvg JSNumber.toString 12 sample_settings) = true /\
  XML.well_formed
    (getButtonSvg JSNumber.toString 3 (with_item_name "[done] > 5" sample_settings)) = true.
Proof.
  split; apply getButtonSvg_markup; solve [exact inert_JSNumber | reflexivity].
Defined.

(** A refresh repeated against the same answer of the service changes
    nothing more: it ends the same way and every instance displays what
    it displayed after the first one. *)
Theorem updateButton_idempotent (enc : string -> string) (str : Response -> string)
    (toS : float -> string) (env : Env) (w : World)
    (settings : QuerySettings) (action : string) :
  let first := updateButton enc str toS settings action env w in
  let second := updateButton enc str toS settings action env (snd first) in
  fst second = fst first /\
  images (snd second) = images (snd first) /\
  registrations (snd second) = registrations w.
Proof.
  intros first second. subst first second.
  rewrite (updateButton_cases enc str toS env w settings action).
  rewrite (updateButton_cases enc str toS env _ settings action). cbn zeta.
  destruct (remote env _ _) as [e|response]; [repeat split|].
  destruct (ok response); [|repeat split].
  destruct (json response) as [e|tasks]; [repeat split|].
  cbn. split; [reflexivity|]. split; [apply insert_insert_eq | reflexivity].
Qed.

(** A first cutoff that is negative is set, and every count from 0 on
    reaches it: the button then shows colour 1 of its ladder whatever the
    count, and the other rungs are never used. *)
Theorem getColor_negative_cutoff (count c : float) (s : QuerySettings) :
  truthy c = true ->
  PrimFloat.leb c 0 = true ->
  PrimFloat.leb 0 count = true ->
  (g_cutoff_1 s = Some c -> getColor count s = g_color_1 s |? "green") /\
  (truthy (g_cutoff_1 s) = false -> b_cutoff_1 s = Some c ->
     getColor count s = b_color_1 s |? "red").
Proof.
  intros Hset Hneg Hcount.
  assert (Hs : truthy (Some c) = true) by exact Hset.
  assert (Hge : (count >=? Some c) = true) by exact (ge_trans count c 0 Hneg Hcount).
  split.
  - intros Hc. unfold getColor. now rewrite Hc, Hs, Hge.
  - intros HG Hc. unfold getColor. now rewrite HG, Hc, Hs, Hge.
Qed.

Lemma getColor_negative_cutoff_witness :
  getColor 0 (with_cutoff G1 (Some (-1)%float) sample_settings) = "#00ff00" /\
  getColor 3 (with_cutoff B1 (Some (-1)%float) (with_cutoff G1 None sample_settings)) = "red".
Proof.
  split.
  - rewrite (proj1 (getColor_negative_cutoff 0 (-1)
                      (with_cutoff G1 (Some (-1)%float) sample_settings)
                      eq_refl eq_refl eq_refl) eq_refl).
    reflexivity.
  - rewrite (proj2 (getColor_negative_cutoff 3 (-1)
                      (with_cutoff B1 (Some (-1)%float) (with_cutoff G1 None sample_settings))
                      eq_refl eq_refl eq_refl) eq_refl eq_refl).
    reflexivity.
Defined.
